(** * frontapp-cli: error taxonomy, identifier prefixes and error formatting

    A shallow embedding of [internal/api] (error types, exit codes,
    identifier prefixes, circuit breaker) and of [internal/errfmt]
    (the [Format] function), followed by the properties established
    about them.

    Go strings are byte sequences and are modelled by [string]; Go [int]
    values are modelled by [Z] (no arithmetic is performed on them, only
    comparisons and decimal printing); a Go [error] interface value is an
    [option error], [None] being [nil]. *)

From Stdlib Require Import String Ascii ZArith List Bool Lia DecimalString.
Import ListNotations.
Open Scope string_scope.

(** ** Fragments of the Go standard library used by the source *)

Module Go.

(** Go string literals of the source are kept verbatim; [lit] interprets
    the only escape sequence they use, backslash-n. *)
Fixpoint lit (s : string) : string :=
  match s with
  | String "\"%char (String "n"%char rest) => String "010"%char (lit rest)
  | String c rest => String c (lit rest)
  | EmptyString => EmptyString
  end.

(** [strconv.Itoa], the rendering of the verb d. *)
Definition Itoa (n : Z) : string := NilZero.string_of_int (Z.to_int n).

(** Operands of [fmt.Sprintf].  An error operand is represented by the
    text of its [Error()] method, [None] for a nil error. *)
Inductive value : Type :=
| VString (s : string)
| VInt (n : Z)
| VError (e : option string).

(** Operand printed with its type, as in Go's diagnostics for an
    ill-matched verb.  The dynamic type of an error operand is not
    tracked. *)
Definition typed (a : value) : string :=
  match a with
  | VString s => "string=" ++ s
  | VInt n => "int=" ++ Itoa n
  | VError (Some m) => "error=" ++ m
  | VError None => "<nil>"
  end.

(** One verb applied to one operand.  The source only uses s on strings,
    d on ints and v on errors. *)
Definition verb (v : ascii) (a : value) : string :=
  match a with
  | VString s =>
      if (Ascii.eqb v "s" || Ascii.eqb v "v")%bool then s
      else "%!" ++ String v ("(" ++ typed a ++ ")")
  | VInt n =>
      if (Ascii.eqb v "d" || Ascii.eqb v "v")%bool then Itoa n
      else "%!" ++ String v ("(" ++ typed a ++ ")")
  | VError (Some m) =>
      if (Ascii.eqb v "s" || Ascii.eqb v "v")%bool then m
      else "%!" ++ String v ("(" ++ typed a ++ ")")
  | VError None =>
      if Ascii.eqb v "v" then "<nil>"
      else "%!" ++ String v ("(" ++ typed a ++ ")")
  end.

Fixpoint join_typed (l : list value) : string :=
  match l with
  | [] => ""
  | [a] => typed a
  | a :: l' => typed a ++ ", " ++ join_typed l'
  end.

Definition extra (args : list value) : string :=
  match args with
  | [] => ""
  | _ => "%!(EXTRA " ++ join_typed args ++ ")"
  end.

(** [fmt.Sprintf] for format strings without flags, width or precision:
    a percent sign followed by a verb consumes the next operand, two
    percent signs print one. *)
Fixpoint Sprintf (format : string) (args : list value) : string :=
  match format with
  | EmptyString => extra args
  | String "%"%char EmptyString => "%!(NOVERB)" ++ extra args
  | String "%"%char (String v rest) =>
      if Ascii.eqb v "%" then String "%"%char (Sprintf rest args)
      else
        match args with
        | [] => "%!" ++ String v ("(MISSING)" ++ Sprintf rest [])
        | a :: args' => verb v a ++ Sprintf rest args'
        end
  | String c rest => String c (Sprintf rest args)
  end.

(** [strings.HasPrefix] and [strings.Contains]. *)
Fixpoint HasPrefix (s prefix : string) {struct prefix} : bool :=
  match prefix with
  | EmptyString => true
  | String a p' =>
      match s with
      | String b s' => (Ascii.eqb a b && HasPrefix s' p')%bool
      | EmptyString => false
      end
  end.

Fixpoint Contains (s substr : string) : bool :=
  (HasPrefix s substr
   || match s with
      | EmptyString => false
      | String _ s' => Contains s' substr
      end)%bool.

(** [strings.HasSuffix]. *)
Fixpoint HasSuffix (s suffix : string) : bool :=
  (String.eqb s suffix
   || match s with
      | EmptyString => false
      | String _ s' => HasSuffix s' suffix
      end)%bool.

(** [strings.Builder]: the accumulated text; [WriteString] appends. *)
Definition Builder := string.
Definition WriteString (sb : Builder) (s : string) : Builder := sb ++ s.

End Go.

(** ** Package [internal/api]: errors and exit codes *)

Module Api.

Definition ExitSuccess : Z := 0.
Definition ExitError : Z := 1.
Definition ExitUsage : Z := 2.
Definition ExitAuth : Z := 3.
Definition ExitNotFound : Z := 4.
Definition ExitRateLimit : Z := 5.

(** [net/http] status constants used by [ExitCode]. *)
Definition StatusUnauthorized : Z := 401.
Definition StatusForbidden : Z := 403.
Definition StatusNotFound : Z := 404.
Definition StatusTooManyRequests : Z := 429.

Module APIError.
Record t : Type := mk {
  StatusCode : Z;
  Message : string;
  Details : string;
  RequestedID : string;
  ExpectedResource : string
}.

Definition Error (e : t) : string :=
  if negb (String.eqb (Details e) "")
  then Go.Sprintf "%s: %s" [Go.VString (Message e); Go.VString (Details e)]
  else Message e.

Definition ExitCode (e : t) : Z :=
  let c := StatusCode e in
  if (Z.eqb c StatusUnauthorized || Z.eqb c StatusForbidden)%bool then ExitAuth
  else if Z.eqb c StatusNotFound then ExitNotFound
  else if Z.eqb c StatusTooManyRequests then ExitRateLimit
  else ExitError.
End APIError.

Module CircuitBreakerError.
Definition Error : string :=
  "circuit breaker is open: too many consecutive failures".
End CircuitBreakerError.

Module NotFoundError.
Record t : Type := mk { Resource : string; ID : string }.

Definition Error (e : t) : string :=
  if negb (String.eqb (ID e) "")
  then Go.Sprintf "%s '%s' not found" [Go.VString (Resource e); Go.VString (ID e)]
  else Go.Sprintf "%s not found" [Go.VString (Resource e)].
End NotFoundError.

Module RateLimitError.
Record t : Type := mk { RetryAfter : Z }.

Definition Error (e : t) : string :=
  if (0 <? RetryAfter e)%Z
  then Go.Sprintf "rate limit exceeded, retry after %d seconds"
         [Go.VInt (RetryAfter e)]
  else "rate limit exceeded".
End RateLimitError.

Module WrongResourceTypeError.
Record t : Type := mk {
  ExpectedType : string;
  ActualType : string;
  ID : string
}.

Definition Error (e : t) : string :=
  Go.Sprintf "'%s' is a %s ID, but a %s ID was expected"
    [Go.VString (ID e); Go.VString (ActualType e); Go.VString (ExpectedType e)].
End WrongResourceTypeError.

(** Identity of a value made by [errors.New]: such values are compared
    by address.  The three sentinels of this package and the one of
    package [internal/auth] that [errfmt] tests for are named; any other
    is numbered. *)
Inductive errorString : Type :=
| addr_ErrNotAuthenticated
| addr_ErrRateLimited
| addr_ErrNotFound
| addr_auth_ErrNotAuthenticated
| addr_other (n : nat).

Definition errorString_eqb (a b : errorString) : bool :=
  match a, b with
  | addr_ErrNotAuthenticated, addr_ErrNotAuthenticated => true
  | addr_ErrRateLimited, addr_ErrRateLimited => true
  | addr_ErrNotFound, addr_ErrNotFound => true
  | addr_auth_ErrNotAuthenticated, addr_auth_ErrNotAuthenticated => true
  | addr_other n, addr_other m => Nat.eqb n m
  | _, _ => false
  end.

(** Non-nil error values that can reach the formatter: the error types
    of this package, values of [errors.New] (address and text) and the
    wrappers built by [fmt.Errorf] with the verb w (text and wrapped
    error).  [AuthError] is the only type of the package with an
    [Unwrap] method; its field [Err] may be nil.  Errors joined by
    [errors.Join] and nil pointers stored in a non-nil interface value are
    not represented. *)
#[warnings="-register-all"] Inductive error : Type :=
| EAPIError (e : APIError.t)
| ECircuitBreakerError
| EAuthError (Err : option error)
| ENotFoundError (e : NotFoundError.t)
| ERateLimitError (e : RateLimitError.t)
| EWrongResourceTypeError (e : WrongResourceTypeError.t)
| ENew (addr : errorString) (text : string)
| EWrap (text : string) (inner : error).

Definition ErrNotAuthenticated : error :=
  ENew addr_ErrNotAuthenticated "not authenticated".
Definition ErrRateLimited : error :=
  ENew addr_ErrRateLimited "rate limit exceeded".
Definition ErrNotFound : error :=
  ENew addr_ErrNotFound "not found".

(** The [Error()] method of each error value. *)
Fixpoint Error (e : error) : string :=
  match e with
  | EAPIError a => APIError.Error a
  | ECircuitBreakerError => CircuitBreakerError.Error
  | EAuthError Err =>
      Go.Sprintf "authentication error: %v"
        [Go.VError match Err with
                   | Some i => Some (Error i)
                   | None => None
                   end]
  | ENotFoundError n => NotFoundError.Error n
  | ERateLimitError r => RateLimitError.Error r
  | EWrongResourceTypeError w => WrongResourceTypeError.Error w
  | ENew _ text => text
  | EWrap text _ => text
  end.

(** The [Unwrap()] method, [None] where the type has none or it returns
    nil. *)
Definition Unwrap (e : error) : option error :=
  match e with
  | EAuthError Err => Err
  | EWrap _ inner => Some inner
  | _ => None
  end.

(** The errors visited by [errors.As] and [errors.Is]: the error itself,
    then what [Unwrap] gives, repeatedly. *)
Fixpoint chain (e : error) : list error :=
  e :: match e with
       | EAuthError (Some i) => chain i
       | EWrap _ i => chain i
       | _ => []
       end.

Fixpoint first_some {A T : Type} (target : A -> option T) (l : list A) : option T :=
  match l with
  | [] => None
  | a :: l' =>
      match target a with
      | Some t => Some t
      | None => first_some target l'
      end
  end.

(** [errors.As]: the first error of the chain of the target's type. *)
Definition As {T : Type} (target : error -> option T) (err : error) : option T :=
  first_some target (chain err).

(** [errors.Is] against a value of [errors.New]: some error of the chain
    is that very value. *)
Definition Is (err : error) (target : errorString) : bool :=
  existsb (fun e => match e with
                    | ENew a _ => errorString_eqb a target
                    | _ => false
                    end) (chain err).

(** The cause of an [AuthError], searched by [errors.As]. *)
Definition causeAs {T : Type} (target : error -> option T) (Err : option error)
  : option T :=
  match Err with
  | Some cause => As target cause
  | None => None
  end.

(** The type tests behind the targets of [errors.As] in [errfmt]. *)
Definition isWrongResourceTypeError (e : error) : option WrongResourceTypeError.t :=
  match e with EWrongResourceTypeError w => Some w | _ => None end.
Definition isAPIError (e : error) : option APIError.t :=
  match e with EAPIError a => Some a | _ => None end.
(** An [AuthError] is given by its only field, [Err]. *)
Definition isAuthError (e : error) : option (option error) :=
  match e with EAuthError Err => Some Err | _ => None end.
Definition isRateLimitError (e : error) : option RateLimitError.t :=
  match e with ERateLimitError r => Some r | _ => None end.
Definition isCircuitBreakerError (e : error) : option unit :=
  match e with ECircuitBreakerError => Some tt | _ => None end.

End Api.

(** ** Package [internal/api]: identifier prefixes *)

Module IdPrefix.
Import Api.

Section Table.

(** Modelled from the spec: file [internal/api/idprefix.go] is not among
    the sources (its test is).  The static prefix table is a parameter:
    the spec names five of its entries only.  A prefix absent from the
    table has the empty kind. *)
Variable prefixToResource : list (string * string).

(** Modelled from the spec: the minimum that the length of an identifier
    must exceed; the spec does not give its value. *)
Variable minLength : nat.

Definition separator : ascii := "_".

Fixpoint lookup (table : list (string * string)) (prefix : string) : string :=
  match table with
  | [] => ""
  | (p, kind) :: table' =>
      if String.eqb p prefix then kind else lookup table' prefix
  end.

(** Modelled from the spec: [ExtractPrefix] of idprefix.go, "returns the
    leading xxx_ segment only if the 4th character is the separator and
    the total length exceeds a minimum", and the empty string
    otherwise. *)
Definition ExtractPrefix (id : string) : string :=
  if Nat.leb (String.length id) minLength then ""
  else
    match String.get 3 id with
    | Some c => if Ascii.eqb c separator then String.substring 0 4 id else ""
    | None => ""
    end.

(** Modelled from the spec: [GetResourceType] of idprefix.go, "maps
    extractPrefix result through the static prefix table; returns empty
    for unknown prefixes or malformed input". *)
Definition GetResourceType (id : string) : string :=
  let prefix := ExtractPrefix id in
  if String.eqb prefix "" then "" else lookup prefixToResource prefix.

(** Modelled from the spec: [ValidateIDPrefix] of idprefix.go, "succeeds
    if the actual prefix matches expectedPrefix or the prefix is
    unknown/malformed; fails only when the actual prefix is valid, known,
    and differs from expected.  Error carries the offending ID, expected
    kind name, and actual kind name".  [None] is the nil error. *)
Definition ValidateIDPrefix (id expectedPrefix : string)
  : option WrongResourceTypeError.t :=
  let actualPrefix := ExtractPrefix id in
  if String.eqb actualPrefix "" then None
  else if String.eqb actualPrefix expectedPrefix then None
  else
    let actualType := lookup prefixToResource actualPrefix in
    if String.eqb actualType "" then None
    else
      Some (WrongResourceTypeError.mk
              (lookup prefixToResource expectedPrefix) actualType id).

(** Distinct prefixes of the table name distinct kinds. *)
Definition distinct_kinds : Prop :=
  forall p q : string,
    lookup prefixToResource p <> "" ->
    lookup prefixToResource p = lookup prefixToResource q ->
    p = q.

End Table.

(** The entries of the table that the spec spells out. *)
Definition namedPrefixes : list (string * string) :=
  [ ("cnv_", "conversation");
    ("msg_", "message");
    ("cmt_", "comment");
    ("tea_", "teammate");
    ("tag_", "tag") ].

End IdPrefix.

(** ** Package [internal/errfmt] *)

Module Errfmt.
Import Go Api.

Section Format.

(** [api.GetResourceType], defined in idprefix.go, is a parameter of the
    formatter. *)
Variable GetResourceType : string -> string.

(** getSuggestionForResource returns a CLI command suggestion for
    accessing a resource. *)
Definition getSuggestionForResource (resourceType id : string) : string :=
  if String.eqb resourceType "conversation" then
    Sprintf "frontcli conv get %s" [VString id]
  else if String.eqb resourceType "message" then
    Sprintf "frontcli messages get %s" [VString id]
  else if String.eqb resourceType "comment" then
    Sprintf "frontcli comments get %s" [VString id]
  else if String.eqb resourceType "contact" then
    Sprintf "frontcli contacts get %s" [VString id]
  else if String.eqb resourceType "teammate" then
    Sprintf "frontcli teammates get %s" [VString id]
  else if String.eqb resourceType "tag" then
    Sprintf "frontcli tags get %s" [VString id]
  else if String.eqb resourceType "inbox" then
    Sprintf "frontcli inboxes get %s" [VString id]
  else if String.eqb resourceType "channel" then
    Sprintf "frontcli channels get %s" [VString id]
  else "".

(** getWrongIDTypeHint returns a hint if the ID has a wrong prefix for
    the expected resource. *)
Definition getWrongIDTypeHint (id expectedResource : string) : string :=
  let actualType := GetResourceType id in
  if (String.eqb actualType "" || String.eqb actualType expectedResource)%bool
  then ""
  else
    let sb : Builder := "" in
    let sb := WriteString sb
      (Sprintf (lit "  '%s' is a %s ID, but a %s ID was expected.\n\n")
         [VString id; VString actualType; VString expectedResource]) in
    let suggestion := getSuggestionForResource actualType id in
    let sb :=
      if negb (String.eqb suggestion "")
      then WriteString sb (Sprintf (lit "  Try: %s\n") [VString suggestion])
      else sb in
    sb.

Definition formatWrongResourceTypeError (err : WrongResourceTypeError.t) : string :=
  let sb : Builder := "" in
  let sb := WriteString sb (lit "Error: Wrong ID type\n\n") in
  let sb := WriteString sb
    (Sprintf (lit "  '%s' is a %s ID, but a %s ID was expected.\n\n")
       [VString (WrongResourceTypeError.ID err);
        VString (WrongResourceTypeError.ActualType err);
        VString (WrongResourceTypeError.ExpectedType err)]) in
  let suggestion :=
    getSuggestionForResource (WrongResourceTypeError.ActualType err)
      (WrongResourceTypeError.ID err) in
  let sb :=
    if negb (String.eqb suggestion "")
    then WriteString sb (Sprintf (lit "  Try: %s\n") [VString suggestion])
    else sb in
  sb.

Definition formatNotAuthenticatedError : string :=
  let sb : Builder := "" in
  let sb := WriteString sb (lit "Error: Not authenticated\n\n") in
  let sb := WriteString sb
    (lit "  Run 'frontcli auth login' to authenticate with Front.\n\n") in
  let sb := WriteString sb (lit "  If you need to set up OAuth credentials first:\n") in
  let sb := WriteString sb (lit "    frontcli auth setup <client_id>\n") in
  sb.

Definition formatCircuitBreakerError : string :=
  let sb : Builder := "" in
  let sb := WriteString sb (lit "Error: Service temporarily unavailable\n\n") in
  let sb := WriteString sb
    (lit "  Too many consecutive failures. Please wait and try again.\n") in
  sb.

Definition formatRateLimitError (err : RateLimitError.t) : string :=
  let sb : Builder := "" in
  let sb := WriteString sb (lit "Error: Rate limit exceeded\n\n") in
  let sb :=
    if (0 <? RateLimitError.RetryAfter err)%Z
    then WriteString sb
           (Sprintf (lit "  Retry after %d seconds.\n")
              [VInt (RateLimitError.RetryAfter err)])
    else sb in
  let sb := WriteString sb
    (lit "  Tip: Use --limit flag to reduce result set size.\n") in
  sb.

(** The argument is the field [Err] of the [AuthError]. *)
Definition formatAuthError (Err : option error) : string :=
  let sb : Builder := "" in
  let sb := WriteString sb (lit "Error: Authentication failed\n\n") in
  let sb := WriteString sb
    (Sprintf (lit "  %v\n\n") [VError (option_map Error Err)]) in
  let sb := WriteString sb
    (lit "  Try running 'frontcli auth login' to re-authenticate.\n") in
  sb.

Definition formatAPIError (err : APIError.t) : string :=
  let sb : Builder := "" in
  let code := APIError.StatusCode err in
  if (code =? 401)%Z then
    let sb := WriteString sb (lit "Error: Not authenticated\n\n") in
    let sb := WriteString sb
      (lit "  Run 'frontcli auth login' to authenticate with Front.\n") in
    sb
  else if (code =? 403)%Z then
    let sb := WriteString sb (lit "Error: Access denied (403)\n\n") in
    let sb := WriteString sb
      (lit "  You don't have permission to perform this action.\n") in
    let sb := WriteString sb (lit "  Check your account permissions in Front.\n") in
    sb
  else if (code =? 404)%Z then
    let sb := WriteString sb (lit "Error: Not found (404)\n\n") in
    let sb :=
      if negb (String.eqb (APIError.Details err) "")
      then WriteString sb ("  " ++ APIError.Details err ++ lit "\n\n")
      else sb in
    (* Check if wrong ID type was used *)
    let hint :=
      if (negb (String.eqb (APIError.RequestedID err) "")
          && negb (String.eqb (APIError.ExpectedResource err) ""))%bool
      then getWrongIDTypeHint (APIError.RequestedID err)
             (APIError.ExpectedResource err)
      else "" in
    if negb (String.eqb hint "") then
      let sb := WriteString sb hint in
      sb
    else
      let sb := WriteString sb
        (lit "  The resource doesn't exist or you don't have access.\n") in
      sb
  else if (code =? 429)%Z then
    let sb := WriteString sb (lit "Error: Rate limit exceeded (429)\n\n") in
    let sb := WriteString sb (lit "  You've hit Front's API rate limit.\n") in
    let sb := WriteString sb
      (lit "  Tip: Use --limit flag to reduce result set size.\n") in
    sb
  else
    let sb := WriteString sb
      (Sprintf (lit "Error: %s (%d)\n")
         [VString (APIError.Message err); VInt code]) in
    let sb :=
      if negb (String.eqb (APIError.Details err) "")
      then WriteString sb (lit "\n  " ++ APIError.Details err ++ lit "\n")
      else sb in
    sb.

(** Format formats an error into a user-friendly message with
    actionable suggestions. *)
Definition Format (err : option error) : string :=
  match err with
  | None => ""
  | Some err =>
      match As isWrongResourceTypeError err with
      | Some wrongTypeErr => formatWrongResourceTypeError wrongTypeErr
      | None =>
      match As isAPIError err with
      | Some apiErr => formatAPIError apiErr
      | None =>
      match As isAuthError err with
      | Some authErr => formatAuthError authErr
      | None =>
      match As isRateLimitError err with
      | Some rateLimitErr => formatRateLimitError rateLimitErr
      | None =>
      match As isCircuitBreakerError err with
      | Some _ => formatCircuitBreakerError
      | None =>
      if Is err addr_auth_ErrNotAuthenticated
      then formatNotAuthenticatedError
      else Sprintf "Error: %v" [VError (Some (Error err))]
      end end end end end
  end.

(** The branches of [Format], what each tests and what each prints.  They
    serve to state in which order [Format] tries them. *)
Inductive branch : Type :=
| BWrongResourceType
| BAPIError
| BAuthError
| BRateLimit
| BCircuitBreaker
| BNotAuthenticated
| BFallback.

Definition is_some {T : Type} (o : option T) : bool :=
  match o with Some _ => true | None => false end.

Definition matches (b : branch) (err : error) : bool :=
  match b with
  | BWrongResourceType => is_some (As isWrongResourceTypeError err)
  | BAPIError => is_some (As isAPIError err)
  | BAuthError => is_some (As isAuthError err)
  | BRateLimit => is_some (As isRateLimitError err)
  | BCircuitBreaker => is_some (As isCircuitBreakerError err)
  | BNotAuthenticated => Is err addr_auth_ErrNotAuthenticated
  | BFallback => true
  end.

Definition render (b : branch) (err : error) : string :=
  match b with
  | BWrongResourceType =>
      match As isWrongResourceTypeError err with
      | Some w => formatWrongResourceTypeError w
      | None => ""
      end
  | BAPIError =>
      match As isAPIError err with
      | Some a => formatAPIError a
      | None => ""
      end
  | BAuthError =>
      match As isAuthError err with
      | Some a => formatAuthError a
      | None => ""
      end
  | BRateLimit =>
      match As isRateLimitError err with
      | Some r => formatRateLimitError r
      | None => ""
      end
  | BCircuitBreaker => formatCircuitBreakerError
  | BNotAuthenticated => formatNotAuthenticatedError
  | BFallback => "Error: " ++ Error err
  end.

(** The order of the tests in the body of [Format]. *)
Definition sourceOrder : list branch :=
  [BWrongResourceType; BAPIError; BAuthError; BRateLimit; BCircuitBreaker;
   BNotAuthenticated; BFallback].

(** The order as the specification words it: the errors carrying an HTTP
    status come after the sentinel. *)
Definition specOrder : list branch :=
  [BWrongResourceType; BAuthError; BRateLimit; BCircuitBreaker;
   BNotAuthenticated; BAPIError; BFallback].

(** First match wins, over a given order. *)
Definition dispatch (order : list branch) (err : error) : option branch :=
  find (fun b => matches b err) order.

Definition FormatBy (order : list branch) (err : error) : string :=
  match dispatch order err with
  | Some b => render b err
  | None => ""
  end.

End Format.

(** The eight resource kinds with a [get] sub-command, and the name of the
    command group of each. *)
Definition getCommands : list (string * string) :=
  [ ("conversation", "conv");
    ("message", "messages");
    ("comment", "comments");
    ("contact", "contacts");
    ("teammate", "teammates");
    ("tag", "tags");
    ("inbox", "inboxes");
    ("channel", "channels") ].

(** An [AuthError] that wraps an [APIError], as a token refresh refused by
    the server gives. *)
Definition refreshRefused : error :=
  EAuthError (Some (EAPIError (APIError.mk 500 "server error" "" "" ""))).

End Errfmt.

(** ** Package [internal/api]: circuit breaker *)

Module CircuitBreaker.

(** Modelled from the spec: the circuit breaker of the API client.  The
    client's file is not among the sources, which only hold the type
    [CircuitBreakerError].  The state is the record of the spec's data
    model; time stamps and the cool-down are integers in one unit. *)
Record CircuitBreakerState : Type := mkState {
  consecutiveFailures : nat;
  open : bool;
  openedAt : Z
}.

Record Config : Type := mkConfig {
  threshold : nat;
  coolDown : Z
}.

(** What the remote side answers to a call that is made: a failure is a
    transport error or a 5xx/429 response. *)
Inductive response : Type := Success | Failure.

(** What the caller gets: [FailFast] is [CircuitBreakerError], returned
    without a transport call. *)
Inductive outcome : Type :=
| FailFast
| Performed (r : response).

(** The breaker with the number of transport calls made so far. *)
Record client : Type := mkClient {
  breaker : CircuitBreakerState;
  transportCalls : nat
}.

Definition initial : client := mkClient (mkState 0 false 0) 0.

Definition coolDownElapsed (cfg : Config) (st : CircuitBreakerState) (now : Z) : bool :=
  (coolDown cfg <=? now - openedAt st)%Z.

(** Modelled from the spec: "success resets the counter and closes the
    breaker". *)
Definition onSuccess (st : CircuitBreakerState) : CircuitBreakerState :=
  mkState 0 false (openedAt st).

(** Modelled from the spec: "counts consecutive failed calls.  On reaching a
    configurable threshold, transitions to open"; a failed trial "re-opens it
    and resets the cool-down timer". *)
Definition onFailure (cfg : Config) (now : Z) (st : CircuitBreakerState)
  : CircuitBreakerState :=
  let n := S (consecutiveFailures st) in
  if (open st || Nat.leb (threshold cfg) n)%bool
  then mkState n true now
  else mkState n false (openedAt st).

(** Modelled from the spec: one call through the breaker at time [now];
    [reply] is the answer of the remote side, consulted only when the call
    is made.  An open breaker "rejects all subsequent calls immediately with
    CircuitBreakerError until a cool-down elapses, at which point a single
    trial call is allowed". *)
Definition call (cfg : Config) (now : Z) (reply : response) (c : client)
  : client * outcome :=
  if (open (breaker c) && negb (coolDownElapsed cfg (breaker c) now))%bool
  then (c, FailFast)
  else
    let st :=
      match reply with
      | Success => onSuccess (breaker c)
      | Failure => onFailure cfg now (breaker c)
      end in
    (mkClient st (S (transportCalls c)), Performed reply).

(** A sequence of calls, each with its time and the remote side's answer. *)
Fixpoint run (cfg : Config) (calls : list (Z * response)) (c : client)
  : client * list outcome :=
  match calls with
  | [] => (c, [])
  | (now, reply) :: calls' =>
      let (c1, o) := call cfg now reply c in
      let (c2, os) := run cfg calls' c1 in
      (c2, o :: os)
  end.

Definition failing (times : list Z) : list (Z * response) :=
  map (fun t => (t, Failure)) times.

End CircuitBreaker.

(** ** Package [internal/cmd]: the [auth] and [whoami] commands *)

Module Cmd.
Import Go Api.

(** A pair of a value and an error, as the functions of the collaborating
    packages return: either the value, or a non-nil error. *)
Inductive result (A : Type) : Type :=
| Ok (a : A)
| Failed (err : error).
Arguments Ok {A} a.
Arguments Failed {A} err.

(** [fmt.Errorf] prints the operand of the verb w as the verb v does. *)
Fixpoint wToV (format : string) : string :=
  match format with
  | String "%"%char (String "w"%char rest) =>
      String "%"%char (String "v"%char (wToV rest))
  | String c rest => String c (wToV rest)
  | EmptyString => EmptyString
  end.

(** [fmt.Errorf] with one operand, for the verb w: the error wraps the
    operand. *)
Definition Errorf (format : string) (err : error) : error :=
  EWrap (Sprintf (wToV format) [VError (Some (Error err))]) err.

(** [fmt.Errorf] without operand: a new value of [errors.New].  The values
    so made are never compared with one another in the code below, and all
    carry the same number. *)
Definition Errorf0 (text : string) : error := ENew (addr_other 0) text.

(** [strconv.FormatBool], the rendering of a bool by the verb v. *)
Definition FormatBool (b : bool) : string := if b then "true" else "false".

(** [fmt.Fprintln] of one string. *)
Definition Println (w line : string) : string := w ++ line ++ lit "\n".

(** The fields that the commands read of the account, of a teammate and of
    a stored token, and the flags they take. *)
Module Me.
Record t : Type := mk { ID : string; Email : string }.
End Me.

Module Teammate.
Record t : Type := mk {
  ID : string;
  Email : string;
  Username : string;
  FirstName : string;
  LastName : string;
  IsAdmin : bool
}.
End Teammate.

Module Token.
Record t : Type := mk {
  Client : string;
  Email : string;
  RefreshToken : string;
  CreatedAt : Z
}.
End Token.

Module RootFlags.
Record t : Type := mk { Client : string; Account : string }.
End RootFlags.

Module AuthorizeOptions.
Record t : Type := mk {
  Client : string;
  ForceConsent : bool;
  Manual : bool;
  Timeout : Z
}.
End AuthorizeOptions.

Module OAuthCredentials.
Record t : Type := mk {
  ClientID : string;
  ClientSecret : string;
  RedirectURI : string
}.
End OAuthCredentials.

(** [time.Minute], in nanoseconds. *)
Definition Minute : Z := 60 * 1000000000.

(** The lines of a text, put one after the other. *)
Definition joinLines (lines : list string) : string :=
  fold_right String.append "" lines.

(** What a command leaves behind: the error it returns and what it wrote to
    the standard output and to the standard error. *)
Record outcome : Type := mkOutcome {
  ret : option error;
  stdout : string;
  stderr : string
}.

(** *** [auth setup] *)

Module AuthSetupCmd.
Record t : Type := mk {
  ClientID : string;
  ClientSecret : string;
  ClientName : string;
  RedirectURI : string
}.

Section Run.

(** [term.IsTerminal] of the standard input, [term.ReadPassword] on it (the
    bytes read, as a string), [config.WriteClientCredentials] (the file
    system is the state it acts on) and the path that
    [config.ClientCredentialsPath] returns. *)
Variable Files : Type.
Variable IsTerminal : bool.
Variable ReadPassword : result string.
Variable WriteClientCredentials :
  string -> OAuthCredentials.t -> Files -> Files * option error.
Variable ClientCredentialsPath : string -> string.

Definition save (c : t) (secret : string) (out : string) (fs : Files)
  : Files * outcome :=
  let creds := OAuthCredentials.mk (ClientID c) secret (RedirectURI c) in
  let (fs', err) := WriteClientCredentials (ClientName c) creds fs in
  match err with
  | Some err => (fs', mkOutcome (Some (Errorf "save credentials: %w" err)) out "")
  | None =>
      let path := ClientCredentialsPath (ClientName c) in
      let out := out ++ Sprintf (lit "Credentials saved to %s\n") [VString path] in
      let out := Println out "Run 'frontcli auth login' to authenticate." in
      (fs', mkOutcome None out "")
  end.

Definition Run (c : t) (fs : Files) : Files * outcome :=
  let secret := ClientSecret c in
  if String.eqb secret "" then
    if IsTerminal then
      let out := "Client Secret: " in
      let out := out ++ lit "\n" in
      match ReadPassword with
      | Failed err =>
          (fs, mkOutcome (Some (Errorf "failed to read secret: %w" err)) out "")
      | Ok bytes => save c bytes out fs
      end
    else
      (fs, mkOutcome
             (Some (Errorf0
                      "client secret required: use --client-secret flag or run interactively"))
             "" "")
  else save c secret "" fs.

End Run.
End AuthSetupCmd.

(** *** [auth login] *)

Module AuthLoginCmd.
Record t : Type := mk {
  Email : string;
  ClientName : string;
  ForceConsent : bool;
  Manual : bool
}.

(** The lines printed for several teammates. *)
Fixpoint printTeammates (w : string) (teammates : list Teammate.t) : string :=
  match teammates with
  | [] => w
  | t :: rest =>
      printTeammates
        (w ++ Sprintf (lit "  - %s (%s %s)\n")
                [VString (Teammate.Email t); VString (Teammate.FirstName t);
                 VString (Teammate.LastName t)])
        rest
  end.

(** The arguments are what [client.Me] and [client.ListTeammates] answer to
    the client made from the refresh token; the second is looked at only
    where the code makes that call.  The result is the pair returned and
    what was written to the standard error. *)
Definition fetchEmail (me : result Me.t) (teammates : result (list Teammate.t))
  : string * option error * string :=
  match me with
  | Failed err => ("", Some err, "")
  | Ok me =>
      if negb (String.eqb (Me.Email me) "") then (Me.Email me, None, "")
      else
        match teammates with
        | Failed _ =>
            if negb (String.eqb (Me.ID me) "") then (Me.ID me, None, "")
            else ("", Some (Errorf0 "could not determine account identity"), "")
        | Ok results =>
            match results with
            | [t] => (Teammate.Email t, None, "")
            | _ =>
                if Nat.ltb 1 (length results) then
                  let w := Println "" "Multiple teammates found. Please re-run with --email flag:" in
                  let w := printTeammates w results in
                  ("", Some (Errorf0 "multiple teammates - specify --email"), w)
                else if negb (String.eqb (Me.ID me) "") then (Me.ID me, None, "")
                else ("", Some (Errorf0 "could not determine account identity"), "")
            end
        end
  end.

Section Run.

(** [auth.Authorize], [auth.OpenDefault] (its error, the key ring being the
    state), [store.SetToken], the answers of the API to the client made from
    a client name and a refresh token, and [time.Now]. *)
Variable Store : Type.
Variable Authorize : AuthorizeOptions.t -> result string.
Variable OpenDefault : option error.
Variable SetToken : string -> string -> Token.t -> Store -> Store * option error.
Variable clientMe : string -> string -> result Me.t.
Variable clientListTeammates : string -> string -> result (list Teammate.t).
Variable Now : Z.

Definition Run (c : t) (flags : option RootFlags.t) (s : Store) : Store * outcome :=
  match Authorize (AuthorizeOptions.mk (ClientName c) (ForceConsent c) (Manual c)
                     (3 * Minute)) with
  | Failed err => (s, mkOutcome (Some (Errorf "authorization failed: %w" err)) "" "")
  | Ok refreshToken =>
      match OpenDefault with
      | Some err => (s, mkOutcome (Some (Errorf "open keyring: %w" err)) "" "")
      | None =>
          (* Use email from flag or try to fetch from /me *)
          let email := Email c in
          let email :=
            match flags with
            | Some flags =>
                if (String.eqb email "" && negb (String.eqb (RootFlags.Account flags) ""))%bool
                then RootFlags.Account flags
                else email
            | None => email
            end in
          let '(email, err, errout) :=
            if String.eqb email "" then
              fetchEmail (clientMe (ClientName c) refreshToken)
                (clientListTeammates (ClientName c) refreshToken)
            else (email, None, "") in
          match err with
          | Some err =>
              (s, mkOutcome
                    (Some (Errorf
                             (lit "could not determine your identity: %w\nUse --email flag to specify your email")
                             err))
                    "" errout)
          | None =>
              let tok := Token.mk "" email refreshToken Now in
              let (s', err) := SetToken (ClientName c) email tok s in
              match err with
              | Some err => (s', mkOutcome (Some (Errorf "store token: %w" err)) "" errout)
              | None =>
                  (s', mkOutcome None
                         (Sprintf (lit "Successfully authenticated as %s\n") [VString email])
                         errout)
              end
          end
      end
  end.

End Run.
End AuthLoginCmd.

(** *** [auth logout] and [auth status] *)

Module AuthLogoutCmd.
Record t : Type := mk {
  Email : string;
  ClientName : string;
  All : bool
}.

Section Run.

(** [auth.OpenDefault] (its error), [store.ListTokens], [store.DeleteToken]
    and [config.NormalizeClientNameOrDefault]. *)
Variable Store : Type.
Variable OpenDefault : option error.
Variable ListTokens : Store -> result (list Token.t).
Variable DeleteToken : string -> string -> Store -> Store * option error.
Variable NormalizeClientNameOrDefault : string -> result string.

(** The loop of the branch for all accounts: the store, the number of
    tokens removed and the warnings. *)
Fixpoint deleteAll (normalizedClient : string) (tokens : list Token.t)
  (s : Store) (count : Z) (errout : string) : Store * Z * string :=
  match tokens with
  | [] => (s, count, errout)
  | tok :: rest =>
      if String.eqb (Token.Client tok) normalizedClient then
        let (s', err) := DeleteToken (Token.Client tok) (Token.Email tok) s in
        match err with
        | Some err =>
            deleteAll normalizedClient rest s' count
              (errout ++ Sprintf (lit "Warning: failed to remove token for %s: %v\n")
                           [VString (Token.Email tok); VError (Some (Error err))])
        | None => deleteAll normalizedClient rest s' (count + 1)%Z errout
        end
      else deleteAll normalizedClient rest s count errout
  end.

(** The loop that looks for the only account: the last token of the client
    and the number of its tokens. *)
Fixpoint findOnly (normalizedClient : string) (tokens : list Token.t)
  (match_ : Token.t) (count : Z) : Token.t * Z :=
  match tokens with
  | [] => (match_, count)
  | tok :: rest =>
      if String.eqb (Token.Client tok) normalizedClient
      then findOnly normalizedClient rest tok (count + 1)%Z
      else findOnly normalizedClient rest match_ count
  end.

Definition remove (c : t) (email : string) (s : Store) : Store * outcome :=
  let (s', err) := DeleteToken (ClientName c) email s in
  match err with
  | Some err => (s', mkOutcome (Some (Errorf "remove token: %w" err)) "" "")
  | None => (s', mkOutcome None (Sprintf (lit "Logged out %s\n") [VString email]) "")
  end.

Definition Run (c : t) (s : Store) : Store * outcome :=
  match OpenDefault with
  | Some err => (s, mkOutcome (Some (Errorf "open keyring: %w" err)) "" "")
  | None =>
      if All c then
        match ListTokens s with
        | Failed err => (s, mkOutcome (Some (Errorf "list tokens: %w" err)) "" "")
        | Ok tokens =>
            match NormalizeClientNameOrDefault (ClientName c) with
            | Failed err => (s, mkOutcome (Some err) "" "")
            | Ok normalizedClient =>
                let '(s', count, errout) := deleteAll normalizedClient tokens s 0 "" in
                (s', mkOutcome None
                       (Sprintf (lit "Logged out %d account(s)\n") [VInt count])
                       errout)
            end
        end
      else if String.eqb (Email c) "" then
        (* Try to find the only account *)
        match ListTokens s with
        | Failed err => (s, mkOutcome (Some (Errorf "list tokens: %w" err)) "" "")
        | Ok tokens =>
            match NormalizeClientNameOrDefault (ClientName c) with
            | Failed err => (s, mkOutcome (Some err) "" "")
            | Ok normalizedClient =>
                let (match_, count) :=
                  findOnly normalizedClient tokens (Token.mk "" "" "" 0) 0 in
                if (count =? 0)%Z then
                  (s, mkOutcome (Some (Errorf0 "no authenticated accounts found")) "" "")
                else if (1 <? count)%Z then
                  (s, mkOutcome
                        (Some (Errorf0 "multiple accounts found; specify --email or use --all"))
                        "" "")
                else remove c (Token.Email match_) s
            end
        end
      else remove c (Email c) s
  end.

End Run.
End AuthLogoutCmd.

Module AuthStatusCmd.
Record t : Type := mk { ClientName : string }.

Section Run.

(** [config.ClientCredentialsExists], [auth.OpenDefault] (its error),
    [store.ListTokens] on the key ring, [config.NormalizeClientNameOrDefault]
    and the day that [time.Time.Format] prints for a time. *)
Variable ClientCredentialsExists : string -> result bool.
Variable OpenDefault : option error.
Variable ListTokens : result (list Token.t).
Variable NormalizeClientNameOrDefault : string -> result string.
Variable formatDay : Z -> string.

Fixpoint countTokens (normalizedClient : string) (tokens : list Token.t) (count : Z) : Z :=
  match tokens with
  | [] => count
  | tok :: rest =>
      if String.eqb (Token.Client tok) normalizedClient
      then countTokens normalizedClient rest (count + 1)%Z
      else countTokens normalizedClient rest count
  end.

Fixpoint printTokens (normalizedClient : string) (tokens : list Token.t) (out : string)
  : string :=
  match tokens with
  | [] => out
  | tok :: rest =>
      if String.eqb (Token.Client tok) normalizedClient
      then printTokens normalizedClient rest
             (out ++ Sprintf (lit "  - %s (since %s)\n")
                       [VString (Token.Email tok); VString (formatDay (Token.CreatedAt tok))])
      else printTokens normalizedClient rest out
  end.

Definition Run (c : t) : outcome :=
  match ClientCredentialsExists (ClientName c) with
  | Failed err => mkOutcome (Some err) "" ""
  | Ok exists_ =>
      if negb exists_ then
        let out := Println "" "Not configured" in
        let out := Println out "Run 'frontcli auth setup <client_id>' to configure." in
        mkOutcome None out ""
      else
        match OpenDefault with
        | Some err => mkOutcome (Some (Errorf "open keyring: %w" err)) "" ""
        | None =>
            match ListTokens with
            | Failed err => mkOutcome (Some (Errorf "list tokens: %w" err)) "" ""
            | Ok tokens =>
                match NormalizeClientNameOrDefault (ClientName c) with
                | Failed err => mkOutcome (Some err) "" ""
                | Ok normalizedClient =>
                    let count := countTokens normalizedClient tokens 0 in
                    if (count =? 0)%Z then
                      let out :=
                        Println "" "OAuth credentials configured but not authenticated." in
                      let out := Println out "Run 'frontcli auth login' to authenticate." in
                      mkOutcome None out ""
                    else
                      let out :=
                        Sprintf (lit "Authenticated: %d account(s)\n") [VInt count] in
                      let out := printTokens normalizedClient tokens out in
                      mkOutcome None out ""
                end
            end
        end
  end.

End Run.
End AuthStatusCmd.

(** *** [whoami] *)

Module WhoamiCmd.

Section Run.

(** [api.GetResourceType] for [errfmt.Format]; [getClient] (its error),
    [resolveOutputMode] (whether the output is JSON), the answers of the API
    to [Me] and [ListTeammates], the first value that
    [auth.GetAuthenticatedEmail] returns, and the error of
    [output.WriteJSON]. *)
Variable GetResourceType : string -> string.
Variable getClient : option error.
Variable resolveOutputMode : result bool.
Variable clientMe : result Me.t.
Variable GetAuthenticatedEmail : string -> string.
Variable clientListTeammates : result (list Teammate.t).
Variable WriteJSON : option error.

(** What is handed to [output.WriteJSON], when it is called. *)
Record run : Type := mkRun {
  result_ : outcome;
  json : option (Me.t * option Teammate.t)
}.

(** The loop over the teammates: the first whose email is the stored one. *)
Fixpoint findTeammate (storedEmail : string) (teammates : list Teammate.t)
  : option Teammate.t :=
  match teammates with
  | [] => None
  | t :: rest =>
      if String.eqb (Teammate.Email t) storedEmail then Some t
      else findTeammate storedEmail rest
  end.

Definition Run (flags : RootFlags.t) : run :=
  match getClient with
  | Some err => mkRun (mkOutcome (Some err) "" "") None
  | None =>
      match resolveOutputMode with
      | Failed err => mkRun (mkOutcome (Some err) "" "") None
      | Ok modeJSON =>
          (* Get account info *)
          match clientMe with
          | Failed err =>
              mkRun (mkOutcome (Some err) "" (Errfmt.Format GetResourceType (Some err)))
                None
          | Ok me =>
              (* Get stored email from auth *)
              let storedEmail := GetAuthenticatedEmail (RootFlags.Client flags) in
              (* Try to find matching teammate *)
              let teammate :=
                match clientListTeammates with
                | Ok teammates => findTeammate storedEmail teammates
                | Failed _ => None
                end in
              if modeJSON then
                mkRun (mkOutcome WriteJSON "" "") (Some (me, teammate))
              else
                (* Show account info *)
                let out := Sprintf (lit "Account:   %s\n") [VString (Me.ID me)] in
                (* Show teammate info if found *)
                let out :=
                  match teammate with
                  | Some t =>
                      let out := out ++ Sprintf (lit "Teammate:  %s\n")
                                          [VString (Teammate.ID t)] in
                      let out := out ++ Sprintf (lit "Email:     %s\n")
                                          [VString (Teammate.Email t)] in
                      let out := out ++ Sprintf (lit "Username:  %s\n")
                                          [VString (Teammate.Username t)] in
                      let out := out ++ Sprintf (lit "Name:      %s %s\n")
                                          [VString (Teammate.FirstName t);
                                           VString (Teammate.LastName t)] in
                      out ++ Sprintf (lit "Admin:     %v\n")
                               [VString (FormatBool (Teammate.IsAdmin t))]
                  | None =>
                      if negb (String.eqb storedEmail "")
                      then out ++ Sprintf (lit "Email:     %s (stored)\n")
                                    [VString storedEmail]
                      else out
                  end in
                mkRun (mkOutcome None out "") None
          end
      end
  end.

End Run.
End WhoamiCmd.

End Cmd.

(** * Properties *)

Import Go Api.

(** ** Strings *)

Lemma HasPrefix_app (p s : string) : HasPrefix (p ++ s) p = true.
Proof.
  induction p as [|a p IH]; simpl.
  - reflexivity.
  - rewrite Ascii.eqb_refl. exact IH.
Qed.

Lemma Contains_app_r (a s sub : string) :
  Contains s sub = true -> Contains (a ++ s) sub = true.
Proof.
  intros H. induction a as [|c a IH]; simpl.
  - exact H.
  - rewrite IH. apply orb_true_r.
Qed.

Lemma Contains_infix (a sub b : string) : Contains (a ++ sub ++ b) sub = true.
Proof.
  apply Contains_app_r.
  destruct (sub ++ b) eqn:E; simpl; rewrite <- E, HasPrefix_app; reflexivity.
Qed.

Lemma Contains_eq (s a sub b : string) :
  s = a ++ sub ++ b -> Contains s sub = true.
Proof. intros ->. apply Contains_infix. Qed.

Lemma string_eqb_false (a b : string) : a <> b -> String.eqb a b = false.
Proof. intros H. apply String.eqb_neq. exact H. Qed.

Lemma append_assoc (a b c : string) : (a ++ b) ++ c = a ++ (b ++ c).
Proof.
  induction a as [|x a IH]; simpl.
  - reflexivity.
  - rewrite IH. reflexivity.
Qed.

Lemma append_nil_r (a : string) : a ++ "" = a.
Proof.
  induction a as [|x a IH]; simpl.
  - reflexivity.
  - rewrite IH. reflexivity.
Qed.

(** ** Error chains *)

Lemma chain_Unwrap (e : error) :
  chain e = e :: match Unwrap e with
                 | Some inner => chain inner
                 | None => []
                 end.
Proof. destruct e as [| |[inner|]| | | | |]; reflexivity. Qed.

Lemma As_head {T : Type} (target : error -> option T) (e : error) (t : T) :
  target e = Some t -> As target e = Some t.
Proof.
  intros H. unfold As. rewrite chain_Unwrap. simpl. rewrite H. reflexivity.
Qed.

Lemma As_Unwrap {T : Type} (target : error -> option T) (e : error) :
  target e = None ->
  As target e = match Unwrap e with
                | Some inner => As target inner
                | None => None
                end.
Proof.
  intros H. unfold As. rewrite chain_Unwrap. simpl. rewrite H.
  destruct (Unwrap e); reflexivity.
Qed.

(** ** Error messages and exit codes *)

(** C3: the message of a [WrongResourceTypeError] is the quoted ID, then
    " is a <actual> ID, but a <expected> ID was expected", whatever the three
    fields are; the instance of the test is included. *)
Theorem WrongResourceTypeError_Error_format :
  (forall e : WrongResourceTypeError.t,
      WrongResourceTypeError.Error e
      = "'" ++ WrongResourceTypeError.ID e ++ "' is a "
        ++ WrongResourceTypeError.ActualType e ++ " ID, but a "
        ++ WrongResourceTypeError.ExpectedType e ++ " ID was expected")
  /\ WrongResourceTypeError.Error
       (WrongResourceTypeError.mk "conversation" "message" "msg_abc123")
     = "'msg_abc123' is a message ID, but a conversation ID was expected".
Proof.
  split.
  - intros [expected actual id].
    unfold WrongResourceTypeError.Error. simpl.
    reflexivity.
  - vm_compute. reflexivity.
Qed.

(** C6: the exit code of an [APIError] depends on its status code only:
    401 and 403 give 3, 404 gives 4, 429 gives 5, any other status gives 1;
    the constants for success and usage error are 0 and 2. *)
Theorem APIError_ExitCode_by_status :
  (forall e : APIError.t,
      let c := APIError.StatusCode e in
      APIError.ExitCode e
      = if (c =? 401)%Z then 3%Z
        else if (c =? 403)%Z then 3%Z
        else if (c =? 404)%Z then 4%Z
        else if (c =? 429)%Z then 5%Z
        else 1%Z)
  /\ (forall e e' : APIError.t,
         APIError.StatusCode e = APIError.StatusCode e' ->
         APIError.ExitCode e = APIError.ExitCode e')
  /\ ExitSuccess = 0%Z /\ ExitUsage = 2%Z
  /\ ExitAuth = 3%Z /\ ExitNotFound = 4%Z /\ ExitRateLimit = 5%Z /\ ExitError = 1%Z.
Proof.
  split; [|split; [|repeat split]].
  - intros e c. unfold APIError.ExitCode. fold c.
    unfold StatusUnauthorized, StatusForbidden, StatusNotFound,
      StatusTooManyRequests, ExitAuth, ExitNotFound, ExitRateLimit, ExitError.
    destruct (c =? 401)%Z, (c =? 403)%Z; reflexivity.
  - intros e e' H. unfold APIError.ExitCode. rewrite H. reflexivity.
Qed.

(** ** Formatting *)

Arguments Itoa : simpl never.
Arguments Contains : simpl never.

Ltac string_norm :=
  repeat (progress (simpl; rewrite ?append_assoc, ?append_nil_r)).

Ltac split_ifs :=
  repeat match goal with
         | |- context [if ?c then _ else _] => destruct c
         end.

Lemma formatAPIError_nonempty (G : string -> string) (a : APIError.t) :
  Errfmt.formatAPIError G a <> "".
Proof.
  unfold Errfmt.formatAPIError, WriteString.
  destruct (APIError.StatusCode a =? 401)%Z; [simpl; discriminate|].
  destruct (APIError.StatusCode a =? 403)%Z; [simpl; discriminate|].
  destruct (APIError.StatusCode a =? 404)%Z.
  - split_ifs; simpl; discriminate.
  - destruct (APIError.StatusCode a =? 429)%Z; [simpl; discriminate|].
    split_ifs; simpl; discriminate.
Qed.

Lemma Format_nonempty (G : string -> string) (err : error) :
  Errfmt.Format G (Some err) <> "".
Proof.
  unfold Errfmt.Format.
  destruct (As isWrongResourceTypeError err) as [w|].
  { unfold Errfmt.formatWrongResourceTypeError, WriteString. split_ifs; simpl; discriminate. }
  destruct (As isAPIError err) as [a|].
  { apply formatAPIError_nonempty. }
  destruct (As isAuthError err) as [a|].
  { unfold Errfmt.formatAuthError, WriteString. simpl. discriminate. }
  destruct (As isRateLimitError err) as [r|].
  { unfold Errfmt.formatRateLimitError, WriteString. split_ifs; simpl; discriminate. }
  destruct (As isCircuitBreakerError err) as [u|].
  { vm_compute. discriminate. }
  destruct (Is err addr_auth_ErrNotAuthenticated).
  { vm_compute. discriminate. }
  simpl. discriminate.
Qed.

(** C9: [Format] of the nil error is the empty string; no branch and no
    fallback rendering is involved, as each of those prints a text that is
    not empty. *)
Theorem Format_nil_is_empty :
  forall G : string -> string,
    Errfmt.Format G None = ""
    /\ (forall err : error, Errfmt.Format G (Some err) <> "")
    /\ (forall (b : Errfmt.branch) (err : error),
           Errfmt.matches b err = true -> Errfmt.render G b err <> "").
Proof.
  intros G. split; [reflexivity|]. split.
  - apply Format_nonempty.
  - intros b err H. destruct b; simpl in *.
    + destruct (As isWrongResourceTypeError err); [|discriminate].
      unfold Errfmt.formatWrongResourceTypeError, WriteString. split_ifs; simpl; discriminate.
    + destruct (As isAPIError err); [|discriminate].
      apply formatAPIError_nonempty.
    + destruct (As isAuthError err); [|discriminate].
      unfold Errfmt.formatAuthError, WriteString. simpl. discriminate.
    + destruct (As isRateLimitError err); [|discriminate].
      unfold Errfmt.formatRateLimitError, WriteString. split_ifs; simpl; discriminate.
    + vm_compute. discriminate.
    + vm_compute. discriminate.
    + discriminate.
Qed.

(** C10: the retry line of the formatted text, and the retry suffix of the
    error message, are there exactly when [RetryAfter] is positive; without
    them the text is the same, minus that line or suffix. *)
Theorem RateLimitError_retry_text :
  forall (G : string -> string) (r : RateLimitError.t),
    let n := RateLimitError.RetryAfter r in
    let out := Errfmt.Format G (Some (ERateLimitError r)) in
    let msg := RateLimitError.Error r in
    ((0 < n)%Z ->
       out = lit "Error: Rate limit exceeded\n\n"
             ++ "  Retry after " ++ Itoa n ++ lit " seconds.\n"
             ++ lit "  Tip: Use --limit flag to reduce result set size.\n"
       /\ msg = "rate limit exceeded" ++ ", retry after " ++ Itoa n ++ " seconds")
    /\ ((n <= 0)%Z ->
       out = lit "Error: Rate limit exceeded\n\n"
             ++ lit "  Tip: Use --limit flag to reduce result set size.\n"
       /\ msg = "rate limit exceeded")
    /\ (Contains out "Retry after" = true <-> (0 < n)%Z)
    /\ (Contains msg "retry after" = true <-> (0 < n)%Z).
Proof.
  intros G [n]. simpl.
  unfold Errfmt.formatRateLimitError, RateLimitError.Error, WriteString. simpl.
  destruct (Z.ltb_spec 0 n) as [Hpos|Hneg].
  - split; [|split; [|split]].
    + intros _. split; string_norm; reflexivity.
    + intros H. lia.
    + split; [intros _; exact Hpos|intros _].
      apply (Contains_eq _ (lit "Error: Rate limit exceeded\n\n  ") "Retry after"
               (" " ++ Itoa n ++ lit " seconds.\n  Tip: Use --limit flag to reduce result set size.\n")).
      string_norm. reflexivity.
    + split; [intros _; exact Hpos|intros _].
      apply (Contains_eq _ "rate limit exceeded, " "retry after"
               (" " ++ Itoa n ++ " seconds")).
      string_norm. reflexivity.
  - split; [|split; [|split]].
    + intros H. lia.
    + intros _. split; reflexivity.
    + split; [vm_compute; discriminate|intros H; lia].
    + split; [vm_compute; discriminate|intros H; lia].
Qed.

Lemma RateLimitError_retry_text_witness :
  Errfmt.Format (fun _ => "") (Some (ERateLimitError (RateLimitError.mk 30)))
  = lit "Error: Rate limit exceeded\n\n  Retry after 30 seconds.\n  Tip: Use --limit flag to reduce result set size.\n"
  /\ RateLimitError.Error (RateLimitError.mk 30)
     = "rate limit exceeded, retry after 30 seconds"
  /\ Errfmt.Format (fun _ => "") (Some (ERateLimitError (RateLimitError.mk 0)))
     = lit "Error: Rate limit exceeded\n\n  Tip: Use --limit flag to reduce result set size.\n"
  /\ RateLimitError.Error (RateLimitError.mk (-5)) = "rate limit exceeded".
Proof.
  split; [|split; [|split]].
  - apply (RateLimitError_retry_text (fun _ => "") (RateLimitError.mk 30)).
    simpl. lia.
  - apply (RateLimitError_retry_text (fun _ => "") (RateLimitError.mk 30)).
    simpl. lia.
  - apply (RateLimitError_retry_text (fun _ => "") (RateLimitError.mk 0)).
    simpl. lia.
  - apply (RateLimitError_retry_text (fun _ => "") (RateLimitError.mk (-5))).
    simpl. lia.
Defined.

Lemma getSuggestionForResource_known (kind cmd id : string) :
  In (kind, cmd) Errfmt.getCommands ->
  Errfmt.getSuggestionForResource kind id = "frontcli " ++ cmd ++ " get " ++ id.
Proof.
  intros H. simpl in H.
  repeat (destruct H as [H|H];
          [inversion H; subst; unfold Errfmt.getSuggestionForResource; simpl;
           rewrite append_nil_r; reflexivity|]).
  contradiction.
Qed.

Lemma getSuggestionForResource_unknown (kind id : string) :
  ~ In kind (map fst Errfmt.getCommands) ->
  Errfmt.getSuggestionForResource kind id = "".
Proof.
  intros H. simpl in H. unfold Errfmt.getSuggestionForResource.
  repeat match goal with
         | |- context [String.eqb kind ?k] =>
             destruct (String.eqb_spec kind k) as [->|_];
             [exfalso; apply H; tauto|]
         end.
  reflexivity.
Qed.

Lemma getCommands_suggestion_nonempty (kind cmd id : string) :
  In (kind, cmd) Errfmt.getCommands ->
  String.eqb (Errfmt.getSuggestionForResource kind id) "" = false.
Proof.
  intros H. rewrite (getSuggestionForResource_known kind cmd id H). reflexivity.
Qed.

(** C8: for a [WrongResourceTypeError] whose actual kind is one of the eight
    kinds with a command, the formatted text ends with the line
    "Try: frontcli <command> get <id>"; for any other actual kind the text
    stops after the explanation, with no such line. *)
Theorem WrongResourceTypeError_suggestion :
  forall (G : string -> string) (w : WrongResourceTypeError.t),
    let id := WrongResourceTypeError.ID w in
    let actual := WrongResourceTypeError.ActualType w in
    let out := Errfmt.Format G (Some (EWrongResourceTypeError w)) in
    let head :=
      lit "Error: Wrong ID type\n\n"
      ++ "  '" ++ id ++ "' is a " ++ actual ++ " ID, but a "
      ++ WrongResourceTypeError.ExpectedType w ++ lit " ID was expected.\n\n" in
    (forall cmd : string,
        In (actual, cmd) Errfmt.getCommands ->
        out = head ++ "  Try: frontcli " ++ cmd ++ " get " ++ id ++ lit "\n"
        /\ Contains out ("Try: frontcli " ++ cmd ++ " get " ++ id) = true)
    /\ (~ In actual (map fst Errfmt.getCommands) -> out = head)
    /\ Contains
         (Errfmt.Format G
            (Some (EWrongResourceTypeError
                     (WrongResourceTypeError.mk "conversation" "message" "msg_abc123"))))
         "Try: frontcli messages get msg_abc123" = true.
Proof.
  intros G [expected actual id]. simpl.
  unfold Errfmt.formatWrongResourceTypeError, WriteString. simpl.
  split; [|split].
  - intros cmd H.
    rewrite (getCommands_suggestion_nonempty _ _ id H).
    rewrite (getSuggestionForResource_known _ _ id H). simpl.
    split.
    + string_norm. reflexivity.
    + apply (Contains_eq _
               (lit "Error: Wrong ID type\n\n  '" ++ id ++ "' is a " ++ actual
                ++ " ID, but a " ++ expected ++ lit " ID was expected.\n\n  ")
               ("Try: frontcli " ++ cmd ++ " get " ++ id) (lit "\n")).
      string_norm. reflexivity.
  - intros H. rewrite (getSuggestionForResource_unknown _ id H). simpl.
    string_norm. reflexivity.
  - vm_compute. reflexivity.
Qed.

Lemma WrongResourceTypeError_suggestion_witness :
  Errfmt.Format (fun _ => "")
    (Some (EWrongResourceTypeError
             (WrongResourceTypeError.mk "conversation" "message" "msg_abc123")))
  = lit "Error: Wrong ID type\n\n  'msg_abc123' is a message ID, but a conversation ID was expected.\n\n  Try: frontcli messages get msg_abc123\n"
  /\ Errfmt.Format (fun _ => "")
       (Some (EWrongResourceTypeError
                (WrongResourceTypeError.mk "conversation" "rule" "rul_abc123")))
     = lit "Error: Wrong ID type\n\n  'rul_abc123' is a rule ID, but a conversation ID was expected.\n\n".
Proof.
  split.
  - apply (proj1 (WrongResourceTypeError_suggestion (fun _ => "")
                    (WrongResourceTypeError.mk "conversation" "message" "msg_abc123"))
             "messages").
    simpl. tauto.
  - apply (proj1 (proj2 (WrongResourceTypeError_suggestion (fun _ => "")
                    (WrongResourceTypeError.mk "conversation" "rule" "rul_abc123")))).
    simpl. intros H.
    repeat (destruct H as [H|H]; [discriminate H|]). exact H.
Defined.

(** C2: for an [APIError] with status 404, a requested ID and an expected
    resource, both not empty, [Format] asks for the kind of the ID.  When the
    kind is not empty and is not the expected resource, the text is the title,
    the details if any, and the wrong-type explanation naming that kind,
    followed for each of the eight kinds with a command by the suggestion
    line for the ID; the generic sentence is not written.  When the kind is
    empty or is the expected resource, the text is the title, the details if
    any, and the generic sentence; no explanation is written. *)
Theorem Format_404_cross_check :
  forall (G : string -> string) (e : APIError.t),
    APIError.StatusCode e = 404%Z ->
    APIError.RequestedID e <> "" ->
    APIError.ExpectedResource e <> "" ->
    let id := APIError.RequestedID e in
    let expected := APIError.ExpectedResource e in
    let kind := G id in
    let out := Errfmt.Format G (Some (EAPIError e)) in
    let title :=
      lit "Error: Not found (404)\n\n"
      ++ (if String.eqb (APIError.Details e) "" then ""
          else "  " ++ APIError.Details e ++ lit "\n\n") in
    let hint :=
      "  '" ++ id ++ "' is a " ++ kind ++ " ID, but a " ++ expected
      ++ lit " ID was expected.\n\n" in
    (kind <> "" -> kind <> expected ->
       (forall cmd : string,
           In (kind, cmd) Errfmt.getCommands ->
           out = title ++ hint
                 ++ "  Try: frontcli " ++ cmd ++ " get " ++ id ++ lit "\n")
       /\ (~ In kind (map fst Errfmt.getCommands) -> out = title ++ hint))
    /\ (kind = "" \/ kind = expected ->
          out = title
                ++ lit "  The resource doesn't exist or you don't have access.\n").
Proof.
  intros G [code msg details id expected]. simpl. intros -> Hid Hexp.
  unfold Errfmt.Format, As. simpl.
  unfold Errfmt.formatAPIError, WriteString. simpl.
  rewrite (string_eqb_false _ _ Hid), (string_eqb_false _ _ Hexp). simpl.
  unfold Errfmt.getWrongIDTypeHint, WriteString.
  split.
  - intros Hk Hne.
    rewrite (string_eqb_false _ _ Hk), (string_eqb_false _ _ Hne). simpl.
    split.
    + intros cmd Hin.
      rewrite (getCommands_suggestion_nonempty _ _ id Hin).
      rewrite (getSuggestionForResource_known _ _ id Hin). simpl.
      destruct (String.eqb details ""); string_norm; reflexivity.
    + intros Hout.
      rewrite (getSuggestionForResource_unknown _ id Hout). simpl.
      destruct (String.eqb details ""); string_norm; reflexivity.
  - intros [Hk|Hk]; rewrite Hk.
    + simpl. destruct (String.eqb details ""); string_norm; reflexivity.
    + rewrite String.eqb_refl, orb_true_r. simpl.
      destruct (String.eqb details ""); string_norm; reflexivity.
Qed.

Lemma Format_404_cross_check_witness :
  let G := IdPrefix.GetResourceType IdPrefix.namedPrefixes 3 in
  Errfmt.Format G
    (Some (EAPIError (APIError.mk 404 "not found" "" "msg_abc123" "conversation")))
  = lit "Error: Not found (404)\n\n  'msg_abc123' is a message ID, but a conversation ID was expected.\n\n  Try: frontcli messages get msg_abc123\n"
  /\ Errfmt.Format G
       (Some (EAPIError (APIError.mk 404 "not found" "" "cnv_abc123" "conversation")))
     = lit "Error: Not found (404)\n\n  The resource doesn't exist or you don't have access.\n".
Proof.
  intros G. split.
  - assert (H := Format_404_cross_check G
                   (APIError.mk 404 "not found" "" "msg_abc123" "conversation")
                   eq_refl).
    simpl in H.
    destruct H as [Hwrong _]; [discriminate|discriminate|].
    destruct Hwrong as [Hcmd _]; [vm_compute; discriminate|vm_compute; discriminate|].
    apply (Hcmd "messages"). vm_compute. tauto.
  - assert (H := Format_404_cross_check G
                   (APIError.mk 404 "not found" "" "cnv_abc123" "conversation")
                   eq_refl).
    simpl in H.
    destruct H as [_ Hsame]; [discriminate|discriminate|].
    apply Hsame. right. reflexivity.
Defined.

(** C1, as stated: [Format] does not try its branches in the order
    wrong-type, auth, rate-limit, circuit-open, sentinel, HTTP status,
    fallback.  An [AuthError] wrapping an [APIError] is printed by the HTTP
    status branch, which that order puts after the auth branch. *)
Lemma Format_not_in_spec_order :
  ~ (forall (G : string -> string) (err : error),
        Errfmt.Format G (Some err) = Errfmt.FormatBy G Errfmt.specOrder err).
Proof.
  intros H. specialize (H (fun _ => "") Errfmt.refreshRefused).
  vm_compute in H. discriminate H.
Qed.

(** C1, amended: for every non-nil error [Format] prints what the first
    matching branch prints, the branches being tried in the order
    wrong-type, HTTP status ([APIError]), auth, rate-limit, circuit-open,
    sentinel, fallback; no branch before the one that prints matches the
    error. *)
Theorem Format_dispatch_order :
  forall (G : string -> string) (err : error),
    Errfmt.Format G (Some err) = Errfmt.FormatBy G Errfmt.sourceOrder err
    /\ exists (pre : list Errfmt.branch) (b : Errfmt.branch) (post : list Errfmt.branch),
         Errfmt.sourceOrder = (pre ++ b :: post)%list
         /\ forallb (fun b' => negb (Errfmt.matches b' err)) pre = true
         /\ Errfmt.matches b err = true
         /\ Errfmt.Format G (Some err) = Errfmt.render G b err.
Proof.
  intros G err.
  unfold Errfmt.FormatBy, Errfmt.dispatch, Errfmt.sourceOrder, Errfmt.Format.
  simpl.
  destruct (As isWrongResourceTypeError err) as [w|] eqn:E1; simpl.
  { rewrite ?E1, ?E2, ?E3, ?E4, ?E5, ?E6. split; [reflexivity|].
    exists [], Errfmt.BWrongResourceType; eexists.
    simpl. rewrite E1. repeat split. }
  destruct (As isAPIError err) as [a|] eqn:E2; simpl.
  { rewrite ?E1, ?E2, ?E3, ?E4, ?E5, ?E6. split; [reflexivity|].
    exists [Errfmt.BWrongResourceType], Errfmt.BAPIError; eexists.
    simpl. rewrite E1, E2. repeat split. }
  destruct (As isAuthError err) as [au|] eqn:E3; simpl.
  { rewrite ?E1, ?E2, ?E3, ?E4, ?E5, ?E6. split; [reflexivity|].
    exists [Errfmt.BWrongResourceType; Errfmt.BAPIError], Errfmt.BAuthError; eexists.
    simpl. rewrite E1, E2, E3. repeat split. }
  destruct (As isRateLimitError err) as [r|] eqn:E4; simpl.
  { rewrite ?E1, ?E2, ?E3, ?E4, ?E5, ?E6. split; [reflexivity|].
    exists [Errfmt.BWrongResourceType; Errfmt.BAPIError; Errfmt.BAuthError],
      Errfmt.BRateLimit; eexists.
    simpl. rewrite E1, E2, E3, E4. repeat split. }
  destruct (As isCircuitBreakerError err) as [u|] eqn:E5; simpl.
  { rewrite ?E1, ?E2, ?E3, ?E4, ?E5, ?E6. split; [reflexivity|].
    exists [Errfmt.BWrongResourceType; Errfmt.BAPIError; Errfmt.BAuthError;
            Errfmt.BRateLimit], Errfmt.BCircuitBreaker; eexists.
    simpl. rewrite E1, E2, E3, E4, E5. repeat split. }
  destruct (Is err addr_auth_ErrNotAuthenticated) eqn:E6; simpl.
  { rewrite ?E1, ?E2, ?E3, ?E4, ?E5, ?E6. split; [reflexivity|].
    exists [Errfmt.BWrongResourceType; Errfmt.BAPIError; Errfmt.BAuthError;
            Errfmt.BRateLimit; Errfmt.BCircuitBreaker], Errfmt.BNotAuthenticated;
      eexists.
    simpl. rewrite E1, E2, E3, E4, E5, E6. repeat split. }
  rewrite ?E1, ?E2, ?E3, ?E4, ?E5, ?E6, append_nil_r. split; [reflexivity|].
  exists [Errfmt.BWrongResourceType; Errfmt.BAPIError; Errfmt.BAuthError;
          Errfmt.BRateLimit; Errfmt.BCircuitBreaker; Errfmt.BNotAuthenticated],
    Errfmt.BFallback; eexists.
  simpl. rewrite E1, E2, E3, E4, E5, E6. repeat split.
Qed.

(** ** Identifier prefixes *)

Lemma get3_shape (id : string) :
  String.get 3 id = Some IdPrefix.separator ->
  exists (a b c : ascii) (rest : string),
    id = String a (String b (String c (String IdPrefix.separator rest))).
Proof.
  destruct id as [|a [|b [|c [|d rest]]]]; simpl; try discriminate.
  intros H. injection H as ->. exists a, b, c, rest. reflexivity.
Qed.

(** C5: [ExtractPrefix] gives the first four characters of the identifier,
    the fourth being the separator, when the fourth character of the
    identifier is the separator and its length exceeds the minimum; it gives
    the empty string in every other case.  The five identifiers of the test
    are included; the first needs the minimum to be below its length. *)
Theorem ExtractPrefix_cases :
  forall (minLength : nat) (id : string),
    let p := IdPrefix.ExtractPrefix minLength id in
    (String.get 3 id = Some "_"%char /\ minLength < String.length id ->
       p = String.substring 0 4 id
       /\ String.length p = 4
       /\ String.get 3 p = Some "_"%char
       /\ HasPrefix id p = true)
    /\ (~ (String.get 3 id = Some "_"%char /\ minLength < String.length id) ->
          p = "")
    /\ (minLength < 10 -> IdPrefix.ExtractPrefix minLength "cnv_abc123" = "cnv_")
    /\ IdPrefix.ExtractPrefix minLength "ab" = ""
    /\ IdPrefix.ExtractPrefix minLength "cnvabc123" = ""
    /\ IdPrefix.ExtractPrefix minLength "conver_sation" = ""
    /\ IdPrefix.ExtractPrefix minLength "" = "".
Proof.
  intros minLength id p. subst p. unfold IdPrefix.ExtractPrefix.
  split; [|split; [|split; [|repeat split]]].
  - intros [Hsep Hlen].
    destruct (Nat.leb_spec (String.length id) minLength) as [Hle|_]; [lia|].
    rewrite Hsep. simpl.
    destruct (get3_shape id Hsep) as (a & b & c & rest & ->). simpl.
    rewrite !Ascii.eqb_refl. simpl.
    repeat split; destruct rest; reflexivity.
  - intros Hno.
    destruct (Nat.leb_spec (String.length id) minLength) as [Hle|Hlt]; [reflexivity|].
    destruct (String.get 3 id) as [c|] eqn:Hget; [|reflexivity].
    destruct (Ascii.eqb_spec c IdPrefix.separator) as [->|_]; [|reflexivity].
    exfalso. apply Hno. split; [reflexivity|exact Hlt].
  - intros Hmin.
    destruct (Nat.leb_spec (String.length "cnv_abc123") minLength) as [Hle|_];
      [simpl in Hle; lia|reflexivity].
  - destruct (Nat.leb _ minLength); reflexivity.
  - destruct (Nat.leb _ minLength); reflexivity.
  - destruct (Nat.leb _ minLength); reflexivity.
Qed.

Lemma ExtractPrefix_cases_witness :
  IdPrefix.ExtractPrefix 3 "cnv_abc123" = "cnv_"
  /\ IdPrefix.ExtractPrefix 3 "msg_xyz789" = String.substring 0 4 "msg_xyz789".
Proof.
  split.
  - apply (ExtractPrefix_cases 3 ""). lia.
  - apply (ExtractPrefix_cases 3 "msg_xyz789"). split; [reflexivity|simpl; lia].
Defined.

Lemma namedPrefixes_distinct : IdPrefix.distinct_kinds IdPrefix.namedPrefixes.
Proof.
  intros p q Hne Heq.
  unfold IdPrefix.namedPrefixes in *. cbn [IdPrefix.lookup] in *.
  repeat match type of Heq with
         | context [String.eqb ?a ?b] => destruct (String.eqb_spec a b)
         end;
    subst; try reflexivity; try discriminate; try congruence.
Qed.

(** C4: [ValidateIDPrefix] returns no error when the prefix of the
    identifier is the expected prefix, when the identifier has no well-formed
    prefix, and when its prefix has no kind in the table.  It returns an
    error exactly when the prefix is well formed, has a kind, and is not the
    expected prefix; when distinct prefixes of the table name distinct kinds,
    that is exactly when the prefix is well formed, has a kind, and that kind
    is not the kind of the expected prefix.  The error carries the kind of
    the expected prefix, the kind of the actual prefix and the identifier. *)
Theorem ValidateIDPrefix_cases :
  forall (table : list (string * string)) (minLength : nat)
         (id expectedPrefix : string),
    let actualPrefix := IdPrefix.ExtractPrefix minLength id in
    let actualKind := IdPrefix.lookup table actualPrefix in
    let expectedKind := IdPrefix.lookup table expectedPrefix in
    let result := IdPrefix.ValidateIDPrefix table minLength id expectedPrefix in
    (actualPrefix = expectedPrefix -> result = None)
    /\ (actualPrefix = "" \/ actualKind = "" -> result = None)
    /\ (result <> None <->
        actualPrefix <> "" /\ actualKind <> "" /\ actualPrefix <> expectedPrefix)
    /\ (IdPrefix.distinct_kinds table ->
        (result <> None <->
         actualPrefix <> "" /\ actualKind <> "" /\ actualKind <> expectedKind))
    /\ (forall w : WrongResourceTypeError.t,
           result = Some w ->
           w = WrongResourceTypeError.mk expectedKind actualKind id).
Proof.
  intros table minLength id expectedPrefix.
  unfold IdPrefix.ValidateIDPrefix. cbv zeta.
  set (actualPrefix := IdPrefix.ExtractPrefix minLength id).
  destruct (String.eqb_spec actualPrefix "") as [Hempty|Hwell].
  { split; [intros _; reflexivity|].
    split; [intros _; reflexivity|].
    split; [|split; [intros _|intros w H; discriminate H]].
    - split.
      + intros H. exfalso. apply H. reflexivity.
      + intros (H & _). contradiction.
    - split.
      + intros H. exfalso. apply H. reflexivity.
      + intros (H & _). contradiction. }
  destruct (String.eqb_spec actualPrefix expectedPrefix) as [Hsame|Hdiff].
  { split; [intros _; reflexivity|].
    split; [intros _; reflexivity|].
    split; [|split; [intros _|intros w H; discriminate H]].
    - split.
      + intros H. exfalso. apply H. reflexivity.
      + intros (_ & _ & H). contradiction.
    - split.
      + intros H. exfalso. apply H. reflexivity.
      + intros (_ & _ & H). exfalso. apply H. rewrite Hsame. reflexivity. }
  destruct (String.eqb_spec (IdPrefix.lookup table actualPrefix) "")
    as [Hunknown|Hknown].
  { split; [intros _; reflexivity|].
    split; [intros _; reflexivity|].
    split; [|split; [intros _|intros w H; discriminate H]].
    - split.
      + intros H. exfalso. apply H. reflexivity.
      + intros (_ & H & _). contradiction.
    - split.
      + intros H. exfalso. apply H. reflexivity.
      + intros (_ & H & _). contradiction. }
  split; [intros H; contradiction|].
  split; [intros [H|H]; contradiction|].
  split; [|split; [intros Hdistinct|intros w H; injection H as <-; reflexivity]].
  - split.
    + intros _. split; [exact Hwell|]. split; [exact Hknown|exact Hdiff].
    + intros _. discriminate.
  - split.
    + intros _. split; [exact Hwell|]. split; [exact Hknown|].
      intros Hkind. apply Hdiff. apply Hdistinct; assumption.
    + intros _. discriminate.
Qed.

Lemma ValidateIDPrefix_cases_witness :
  IdPrefix.ValidateIDPrefix IdPrefix.namedPrefixes 3 "msg_abc123" "cnv_"
  = Some (WrongResourceTypeError.mk "conversation" "message" "msg_abc123")
  /\ IdPrefix.ValidateIDPrefix IdPrefix.namedPrefixes 3 "cnv_abc123" "cnv_" = None
  /\ IdPrefix.ValidateIDPrefix IdPrefix.namedPrefixes 3 "xyz_abc123" "cnv_" = None
  /\ IdPrefix.ValidateIDPrefix IdPrefix.namedPrefixes 3 "noprefix" "cnv_" = None
  /\ IdPrefix.ValidateIDPrefix IdPrefix.namedPrefixes 3 "tag_abc123" "cnv_" <> None.
Proof.
  pose proof (ValidateIDPrefix_cases IdPrefix.namedPrefixes 3) as cases.
  split; [|split; [|split; [|split]]].
  - destruct (IdPrefix.ValidateIDPrefix IdPrefix.namedPrefixes 3 "msg_abc123" "cnv_")
      as [w|] eqn:E.
    + f_equal.
      exact (proj2 (proj2 (proj2 (proj2 (cases "msg_abc123" "cnv_")))) w E).
    + vm_compute in E. discriminate E.
  - exact (proj1 (cases "cnv_abc123" "cnv_") eq_refl).
  - exact (proj1 (proj2 (cases "xyz_abc123" "cnv_")) (or_intror eq_refl)).
  - exact (proj1 (proj2 (cases "noprefix" "cnv_")) (or_introl eq_refl)).
  - apply (proj1 (proj2 (proj2 (proj2 (cases "tag_abc123" "cnv_")))) namedPrefixes_distinct).
    repeat split; vm_compute; discriminate.
Defined.

(** ** Circuit breaker *)

Lemma run_app (cfg : CircuitBreaker.Config) (l1 l2 : list (Z * CircuitBreaker.response))
  (c : CircuitBreaker.client) :
  CircuitBreaker.run cfg (l1 ++ l2)%list c
  = (fst (CircuitBreaker.run cfg l2 (fst (CircuitBreaker.run cfg l1 c))),
     (snd (CircuitBreaker.run cfg l1 c)
      ++ snd (CircuitBreaker.run cfg l2 (fst (CircuitBreaker.run cfg l1 c))))%list).
Proof.
  revert c. induction l1 as [|[now reply] l1 IH]; intros c; simpl.
  - destruct (CircuitBreaker.run cfg l2 c). reflexivity.
  - destruct (CircuitBreaker.call cfg now reply c) as [c1 o].
    rewrite IH.
    destruct (CircuitBreaker.run cfg l1 c1) as [c2 os]. simpl.
    reflexivity.
Qed.

Lemma run_failures_below_threshold (cfg : CircuitBreaker.Config) (times : list Z) :
  forall c : CircuitBreaker.client,
    CircuitBreaker.open (CircuitBreaker.breaker c) = false ->
    CircuitBreaker.consecutiveFailures (CircuitBreaker.breaker c) + length times
      < CircuitBreaker.threshold cfg ->
    CircuitBreaker.run cfg (CircuitBreaker.failing times) c
    = (CircuitBreaker.mkClient
         (CircuitBreaker.mkState
            (CircuitBreaker.consecutiveFailures (CircuitBreaker.breaker c) + length times)
            false
            (CircuitBreaker.openedAt (CircuitBreaker.breaker c)))
         (CircuitBreaker.transportCalls c + length times),
       map (fun _ => CircuitBreaker.Performed CircuitBreaker.Failure) times).
Proof.
  induction times as [|t times IH]; intros [[n o at_] calls] Hclosed Hbelow;
    simpl in *; subst o.
  - rewrite !Nat.add_0_r. reflexivity.
  - unfold CircuitBreaker.call, CircuitBreaker.onFailure. simpl.
    destruct (Nat.leb_spec (CircuitBreaker.threshold cfg) (S n)) as [Hle|_]; [lia|].
    rewrite IH; [|reflexivity|simpl; lia]. simpl.
    rewrite !Nat.add_succ_r. reflexivity.
Qed.

Lemma run_fail_fast (cfg : CircuitBreaker.Config) (calls : list (Z * CircuitBreaker.response))
  (c : CircuitBreaker.client) :
  CircuitBreaker.open (CircuitBreaker.breaker c) = true ->
  Forall (fun call =>
            (fst call - CircuitBreaker.openedAt (CircuitBreaker.breaker c)
             < CircuitBreaker.coolDown cfg)%Z) calls ->
  CircuitBreaker.run cfg calls c = (c, map (fun _ => CircuitBreaker.FailFast) calls).
Proof.
  intros Hopen Hall. induction Hall as [|[now reply] calls Hnow _ IH]; simpl.
  - reflexivity.
  - unfold CircuitBreaker.call, CircuitBreaker.coolDownElapsed. rewrite Hopen.
    simpl in Hnow.
    destruct (Z.leb_spec (CircuitBreaker.coolDown cfg)
                (now - CircuitBreaker.openedAt (CircuitBreaker.breaker c))) as [Hle|_];
      [lia|].
    simpl. rewrite IH. reflexivity.
Qed.

Lemma call_trial (cfg : CircuitBreaker.Config) (now : Z)
  (reply : CircuitBreaker.response) (c : CircuitBreaker.client) :
  CircuitBreaker.open (CircuitBreaker.breaker c) = true ->
  (CircuitBreaker.coolDown cfg
   <= now - CircuitBreaker.openedAt (CircuitBreaker.breaker c))%Z ->
  CircuitBreaker.call cfg now reply c
  = (CircuitBreaker.mkClient
       match reply with
       | CircuitBreaker.Success =>
           CircuitBreaker.mkState 0 false
             (CircuitBreaker.openedAt (CircuitBreaker.breaker c))
       | CircuitBreaker.Failure =>
           CircuitBreaker.mkState
             (S (CircuitBreaker.consecutiveFailures (CircuitBreaker.breaker c)))
             true now
       end
       (S (CircuitBreaker.transportCalls c)),
     CircuitBreaker.Performed reply).
Proof.
  intros Hopen Helapsed.
  unfold CircuitBreaker.call, CircuitBreaker.coolDownElapsed, CircuitBreaker.onFailure,
    CircuitBreaker.onSuccess.
  rewrite Hopen.
  destruct (Z.leb_spec (CircuitBreaker.coolDown cfg)
              (now - CircuitBreaker.openedAt (CircuitBreaker.breaker c))) as [_|Hlt];
    [|lia].
  simpl. destruct reply; reflexivity.
Qed.

(** C7: the breaker as a state machine.  From a closed breaker whose
    counter is zero, as many failed calls in a row as the threshold are all
    made and leave the breaker open, its counter at the threshold and its
    opening time at the last call.  While the breaker is open and the
    cool-down has not elapsed, every call fails fast: the state does not
    change and no transport call is made.  Once the cool-down has elapsed
    the next call is made: a success sets the counter to zero and closes
    the breaker, a failure leaves it open and sets the opening time to the
    time of that call.  After such a failed trial the calls that follow
    before a new cool-down has elapsed fail fast, so that exactly one
    transport call was made. *)
Theorem circuit_breaker_cycle :
  forall cfg : CircuitBreaker.Config,
    (forall (c : CircuitBreaker.client) (ts : list Z) (t : Z),
        CircuitBreaker.open (CircuitBreaker.breaker c) = false ->
        CircuitBreaker.consecutiveFailures (CircuitBreaker.breaker c) = 0 ->
        S (length ts) = CircuitBreaker.threshold cfg ->
        CircuitBreaker.run cfg (CircuitBreaker.failing (ts ++ [t])%list) c
        = (CircuitBreaker.mkClient
             (CircuitBreaker.mkState (CircuitBreaker.threshold cfg) true t)
             (CircuitBreaker.transportCalls c + CircuitBreaker.threshold cfg),
           map (fun _ => CircuitBreaker.Performed CircuitBreaker.Failure)
             (ts ++ [t])%list))
    /\ (forall (c : CircuitBreaker.client) (calls : list (Z * CircuitBreaker.response)),
           CircuitBreaker.open (CircuitBreaker.breaker c) = true ->
           Forall (fun call =>
                     (fst call - CircuitBreaker.openedAt (CircuitBreaker.breaker c)
                      < CircuitBreaker.coolDown cfg)%Z) calls ->
           CircuitBreaker.run cfg calls c
           = (c, map (fun _ => CircuitBreaker.FailFast) calls))
    /\ (forall (c : CircuitBreaker.client) (now : Z) (reply : CircuitBreaker.response),
           CircuitBreaker.open (CircuitBreaker.breaker c) = true ->
           (CircuitBreaker.coolDown cfg
            <= now - CircuitBreaker.openedAt (CircuitBreaker.breaker c))%Z ->
           CircuitBreaker.call cfg now reply c
           = (CircuitBreaker.mkClient
                match reply with
                | CircuitBreaker.Success =>
                    CircuitBreaker.mkState 0 false
                      (CircuitBreaker.openedAt (CircuitBreaker.breaker c))
                | CircuitBreaker.Failure =>
                    CircuitBreaker.mkState
                      (S (CircuitBreaker.consecutiveFailures (CircuitBreaker.breaker c)))
                      true now
                end
                (S (CircuitBreaker.transportCalls c)),
              CircuitBreaker.Performed reply))
    /\ (forall (c : CircuitBreaker.client) (now : Z)
               (calls : list (Z * CircuitBreaker.response)),
           CircuitBreaker.open (CircuitBreaker.breaker c) = true ->
           (CircuitBreaker.coolDown cfg
            <= now - CircuitBreaker.openedAt (CircuitBreaker.breaker c))%Z ->
           Forall (fun call => (fst call - now < CircuitBreaker.coolDown cfg)%Z) calls ->
           CircuitBreaker.run cfg ((now, CircuitBreaker.Failure) :: calls) c
           = (CircuitBreaker.mkClient
                (CircuitBreaker.mkState
                   (S (CircuitBreaker.consecutiveFailures (CircuitBreaker.breaker c)))
                   true now)
                (S (CircuitBreaker.transportCalls c)),
              CircuitBreaker.Performed CircuitBreaker.Failure
              :: map (fun _ => CircuitBreaker.FailFast) calls)).
Proof.
  intros cfg. split; [|split; [|split]].
  - intros c ts t Hclosed Hzero Hlen.
    unfold CircuitBreaker.failing. rewrite map_app, run_app.
    fold (CircuitBreaker.failing ts).
    rewrite (run_failures_below_threshold cfg ts c Hclosed) by lia.
    rewrite Hzero. simpl.
    unfold CircuitBreaker.call, CircuitBreaker.onFailure. simpl.
    rewrite <- Hlen.
    rewrite Nat.leb_refl. simpl.
    rewrite map_app. simpl.
    rewrite Nat.add_succ_r. reflexivity.
  - intros c calls. apply run_fail_fast.
  - intros c now reply. apply call_trial.
  - intros c now calls Hopen Helapsed Hall.
    simpl. rewrite (call_trial cfg now CircuitBreaker.Failure c Hopen Helapsed).
    rewrite run_fail_fast; [reflexivity|reflexivity|exact Hall].
Qed.

Lemma circuit_breaker_cycle_witness :
  let cfg := CircuitBreaker.mkConfig 3 30 in
  let opened := CircuitBreaker.mkClient (CircuitBreaker.mkState 3 true 12) 3 in
  CircuitBreaker.run cfg (CircuitBreaker.failing [10; 11; 12]%Z) CircuitBreaker.initial
  = (opened,
     [CircuitBreaker.Performed CircuitBreaker.Failure;
      CircuitBreaker.Performed CircuitBreaker.Failure;
      CircuitBreaker.Performed CircuitBreaker.Failure])
  /\ CircuitBreaker.run cfg
       [(13, CircuitBreaker.Success); (41, CircuitBreaker.Success)]%Z opened
     = (opened, [CircuitBreaker.FailFast; CircuitBreaker.FailFast])
  /\ CircuitBreaker.call cfg 42 CircuitBreaker.Success opened
     = (CircuitBreaker.mkClient (CircuitBreaker.mkState 0 false 12) 4,
        CircuitBreaker.Performed CircuitBreaker.Success)
  /\ CircuitBreaker.run cfg
       [(42, CircuitBreaker.Failure); (43, CircuitBreaker.Success);
        (71, CircuitBreaker.Success)]%Z opened
     = (CircuitBreaker.mkClient (CircuitBreaker.mkState 4 true 42) 4,
        [CircuitBreaker.Performed CircuitBreaker.Failure;
         CircuitBreaker.FailFast; CircuitBreaker.FailFast]).
Proof.
  intros cfg opened.
  pose proof (circuit_breaker_cycle cfg) as (Hopens & Hfast & Htrial & Hone).
  split; [|split; [|split]].
  - apply (Hopens CircuitBreaker.initial [10; 11]%Z 12%Z); reflexivity.
  - apply (Hfast opened); [reflexivity|].
    repeat constructor; simpl; lia.
  - apply (Htrial opened 42%Z CircuitBreaker.Success); [reflexivity|simpl; lia].
  - apply (Hone opened 42%Z); [reflexivity|simpl; lia|].
    repeat constructor; simpl; lia.
Defined.

(** ** The tests of the source, replayed *)

(** TestFormat_WrongResourceTypeError. *)
Example test_Format_WrongResourceTypeError :
  let result :=
    Errfmt.Format (fun _ => "")
      (Some (EWrongResourceTypeError
               (WrongResourceTypeError.mk "conversation" "message" "msg_abc123"))) in
  Contains result "Wrong ID type" = true
  /\ Contains result "msg_abc123" = true
  /\ Contains result "message ID" = true
  /\ Contains result "conversation ID" = true
  /\ Contains result "frontcli messages get msg_abc123" = true.
Proof. vm_compute. repeat split. Qed.

(** TestFormat_APIError404WithWrongPrefix, with the prefix table of the
    specification. *)
Example test_Format_APIError404WithWrongPrefix :
  let result :=
    Errfmt.Format (IdPrefix.GetResourceType IdPrefix.namedPrefixes 3)
      (Some (EAPIError
               (APIError.mk 404 "not found" "" "msg_abc123" "conversation"))) in
  Contains result "Not found (404)" = true
  /\ Contains result "msg_abc123" = true
  /\ Contains result "message ID" = true
  /\ Contains result "doesn't exist" = false.
Proof. vm_compute. repeat split. Qed.

(** TestFormat_APIError404WithCorrectPrefix. *)
Example test_Format_APIError404WithCorrectPrefix :
  let result :=
    Errfmt.Format (IdPrefix.GetResourceType IdPrefix.namedPrefixes 3)
      (Some (EAPIError
               (APIError.mk 404 "not found" "" "cnv_abc123" "conversation"))) in
  Contains result "Not found (404)" = true
  /\ Contains result "doesn't exist or you don't have access" = true
  /\ Contains result "was expected" = false.
Proof. vm_compute. repeat split. Qed.

(** TestGetSuggestionForResource. *)
Example test_getSuggestionForResource :
  Contains (Errfmt.getSuggestionForResource "conversation" "cnv_abc")
    "conv get cnv_abc" = true
  /\ Contains (Errfmt.getSuggestionForResource "message" "msg_abc")
       "messages get msg_abc" = true
  /\ Contains (Errfmt.getSuggestionForResource "comment" "cmt_abc")
       "comments get cmt_abc" = true
  /\ Contains (Errfmt.getSuggestionForResource "contact" "ctc_abc")
       "contacts get ctc_abc" = true
  /\ Errfmt.getSuggestionForResource "unknown" "xxx_abc" = "".
Proof. vm_compute. repeat split. Qed.

(** TestExtractPrefix, TestGetResourceType and TestValidateIDPrefix, with
    the prefix table of the specification and a minimum length of three. *)
Example test_ExtractPrefix :
  map (IdPrefix.ExtractPrefix 3)
    ["cnv_abc123"; "msg_xyz789"; "cmt_def456"; "tea_ghi789"; "tag_jkl012";
     "ab"; "cnvabc123"; "conver_sation"; ""]
  = ["cnv_"; "msg_"; "cmt_"; "tea_"; "tag_"; ""; ""; ""; ""].
Proof. vm_compute. reflexivity. Qed.

Example test_GetResourceType :
  map (IdPrefix.GetResourceType IdPrefix.namedPrefixes 3)
    ["cnv_abc123"; "msg_xyz789"; "cmt_def456"; "tea_ghi789"; "xyz_abc123";
     "noprefix"]
  = ["conversation"; "message"; "comment"; "teammate"; ""; ""].
Proof. vm_compute. reflexivity. Qed.

Example test_ValidateIDPrefix :
  map (fun id => option_map WrongResourceTypeError.ActualType
                   (IdPrefix.ValidateIDPrefix IdPrefix.namedPrefixes 3 id "cnv_"))
    ["cnv_abc123"; "msg_abc123"; "xyz_abc123"; "noprefix"]
  = [None; Some "message"; None; None].
Proof. vm_compute. reflexivity. Qed.

(** The branch of [formatAPIError] for the other status codes, and the
    fallback of [Format]. *)
Example test_Format_other_status :
  Errfmt.Format (fun _ => "")
    (Some (EAPIError (APIError.mk 500 "server error" "try later" "" "")))
  = lit "Error: server error (500)\n\n  try later\n".
Proof. vm_compute. reflexivity. Qed.

Example test_Format_fallback :
  Errfmt.Format (fun _ => "")
    (Some (EWrap "list inboxes: not found" ErrNotFound))
  = "Error: list inboxes: not found".
Proof. vm_compute. reflexivity. Qed.

(** The error of the counterexample to the specification's order is printed
    by the status branch although it is an [AuthError]. *)
Example test_Format_refreshRefused :
  Errfmt.matches Errfmt.BAuthError Errfmt.refreshRefused = true
  /\ Errfmt.Format (fun _ => "") (Some Errfmt.refreshRefused)
     = lit "Error: server error (500)\n"
  /\ Errfmt.FormatBy (fun _ => "") Errfmt.specOrder Errfmt.refreshRefused
     = lit "Error: Authentication failed\n\n  server error\n\n  Try running 'frontcli auth login' to re-authenticate.\n".
Proof. vm_compute. repeat split. Qed.

(** * Further properties of [internal/errfmt] *)

Arguments HasSuffix : simpl never.

Lemma HasSuffix_cons (c : ascii) (s suffix : string) :
  HasSuffix s suffix = true -> HasSuffix (String c s) suffix = true.
Proof.
  intros H. unfold HasSuffix; fold HasSuffix. rewrite H. apply orb_true_r.
Qed.

Lemma HasSuffix_app (a s suffix : string) :
  HasSuffix s suffix = true -> HasSuffix (a ++ s) suffix = true.
Proof.
  intros H. induction a as [|c a IH]; simpl.
  - exact H.
  - apply HasSuffix_cons. exact IH.
Qed.

Lemma HasSuffix_refl (s : string) : HasSuffix s s = true.
Proof.
  destruct s; unfold HasSuffix; rewrite String.eqb_refl; reflexivity.
Qed.

Ltac ends_with :=
  repeat first [ reflexivity | apply HasSuffix_app | apply HasSuffix_cons ].

Lemma As_through_EWrap {T : Type} (target : error -> option T)
  (text : string) (inner : error) :
  target (EWrap text inner) = None ->
  As target (EWrap text inner) = As target inner.
Proof. intros H. rewrite (As_Unwrap target _ H). reflexivity. Qed.

Lemma Is_through_EWrap (text : string) (inner : error) (target : errorString) :
  Is (EWrap text inner) target = Is inner target.
Proof. reflexivity. Qed.

Lemma Format_prefix (G : string -> string) (err : error) :
  HasPrefix (Errfmt.Format G (Some err)) "Error: " = true.
Proof.
  unfold Errfmt.Format.
  destruct (As isWrongResourceTypeError err) as [w|].
  { unfold Errfmt.formatWrongResourceTypeError, WriteString.
    split_ifs; reflexivity. }
  destruct (As isAPIError err) as [a|].
  { unfold Errfmt.formatAPIError, WriteString.
    destruct (APIError.StatusCode a =? 401)%Z; [reflexivity|].
    destruct (APIError.StatusCode a =? 403)%Z; [reflexivity|].
    destruct (APIError.StatusCode a =? 404)%Z; [split_ifs; reflexivity|].
    destruct (APIError.StatusCode a =? 429)%Z; [reflexivity|].
    split_ifs; reflexivity. }
  destruct (As isAuthError err) as [a|]; [reflexivity|].
  destruct (As isRateLimitError err) as [r|].
  { unfold Errfmt.formatRateLimitError, WriteString. split_ifs; reflexivity. }
  destruct (As isCircuitBreakerError err) as [u|]; [reflexivity|].
  destruct (Is err addr_auth_ErrNotAuthenticated); reflexivity.
Qed.


Lemma getWrongIDTypeHint_empty_or_newline (G : string -> string) (id expected : string) :
  Errfmt.getWrongIDTypeHint G id expected = ""
  \/ HasSuffix (Errfmt.getWrongIDTypeHint G id expected) (lit "\n") = true.
Proof.
  unfold Errfmt.getWrongIDTypeHint, WriteString.
  destruct (String.eqb (G id) "" || String.eqb (G id) expected)%bool;
    [left; reflexivity|right].
  split_ifs; string_norm; ends_with.
Qed.

Lemma formatAPIError_ends_with_newline (G : string -> string) (a : APIError.t) :
  HasSuffix (Errfmt.formatAPIError G a) (lit "\n") = true.
Proof.
  unfold Errfmt.formatAPIError, WriteString.
  destruct (APIError.StatusCode a =? 401)%Z; [reflexivity|].
  destruct (APIError.StatusCode a =? 403)%Z; [reflexivity|].
  destruct (APIError.StatusCode a =? 404)%Z.
  - destruct (negb (String.eqb (APIError.RequestedID a) "")
              && negb (String.eqb (APIError.ExpectedResource a) ""))%bool.
    + destruct (getWrongIDTypeHint_empty_or_newline G (APIError.RequestedID a)
                  (APIError.ExpectedResource a)) as [E|E].
      * rewrite E. simpl. ends_with.
      * destruct (negb (String.eqb
                          (Errfmt.getWrongIDTypeHint G (APIError.RequestedID a)
                             (APIError.ExpectedResource a)) "")).
        -- apply HasSuffix_app. exact E.
        -- ends_with.
    + simpl. ends_with.
  - destruct (APIError.StatusCode a =? 429)%Z; [reflexivity|].
    split_ifs; string_norm; ends_with.
Qed.

(** The text that [Format] prints ends with a line break whenever a branch
    other than the fallback prints it; the fallback prints "Error: " and the
    message of the error, with nothing after it. *)
Theorem Format_ends_with_newline :
  forall (G : string -> string) (err : error),
    (Errfmt.dispatch Errfmt.sourceOrder err <> Some Errfmt.BFallback ->
     HasSuffix (Errfmt.Format G (Some err)) (lit "\n") = true)
    /\ (Errfmt.dispatch Errfmt.sourceOrder err = Some Errfmt.BFallback ->
        Errfmt.Format G (Some err) = "Error: " ++ Error err).
Proof.
  intros G err.
  unfold Errfmt.dispatch, Errfmt.sourceOrder, Errfmt.Format. simpl.
  destruct (As isWrongResourceTypeError err) as [w|]; simpl.
  { split; [intros _|discriminate].
    unfold Errfmt.formatWrongResourceTypeError, WriteString.
    split_ifs; string_norm; ends_with. }
  destruct (As isAPIError err) as [a|]; simpl.
  { split; [intros _|discriminate]. apply formatAPIError_ends_with_newline. }
  destruct (As isAuthError err) as [[cause|]|]; simpl.
  { split; [intros _|discriminate].
    unfold Errfmt.formatAuthError, WriteString. string_norm. ends_with. }
  { split; [intros _|discriminate]. reflexivity. }
  destruct (As isRateLimitError err) as [r|]; simpl.
  { split; [intros _|discriminate].
    unfold Errfmt.formatRateLimitError, WriteString.
    split_ifs; string_norm; ends_with. }
  destruct (As isCircuitBreakerError err) as [u|]; simpl.
  { split; [intros _|discriminate]. reflexivity. }
  destruct (Is err addr_auth_ErrNotAuthenticated); simpl.
  { split; [intros _|discriminate]. reflexivity. }
  split; [intros H; contradiction H; reflexivity|intros _].
  rewrite append_nil_r. reflexivity.
Qed.

Lemma Format_ends_with_newline_witness :
  HasSuffix
    (Errfmt.Format (fun _ => "")
       (Some (EWrap "get me" (EAPIError (APIError.mk 502 "bad gateway" "" "" "")))))
    (lit "\n") = true
  /\ Errfmt.Format (fun _ => "") (Some (EWrap "read config: no such file" ErrNotFound))
     = "Error: read config: no such file".
Proof.
  split.
  - apply (Format_ends_with_newline (fun _ => "")
             (EWrap "get me" (EAPIError (APIError.mk 502 "bad gateway" "" "" "")))).
    vm_compute. discriminate.
  - apply (Format_ends_with_newline (fun _ => "")
             (EWrap "read config: no such file" ErrNotFound)).
    reflexivity.
Defined.

Lemma matches_through_EWrap (b : Errfmt.branch) (text : string) (inner : error) :
  Errfmt.matches b (EWrap text inner) = Errfmt.matches b inner.
Proof. destruct b; reflexivity. Qed.

(** An error wrapped by [fmt.Errorf] with the verb w is printed as the error
    it wraps, whenever a branch other than the fallback prints that one; in
    the fallback the text of the wrapper is printed. *)
Theorem Format_through_wrapper :
  forall (G : string -> string) (text : string) (inner : error),
    Errfmt.dispatch Errfmt.sourceOrder (EWrap text inner)
    = Errfmt.dispatch Errfmt.sourceOrder inner
    /\ (Errfmt.dispatch Errfmt.sourceOrder inner <> Some Errfmt.BFallback ->
        Errfmt.Format G (Some (EWrap text inner)) = Errfmt.Format G (Some inner))
    /\ (Errfmt.dispatch Errfmt.sourceOrder inner = Some Errfmt.BFallback ->
        Errfmt.Format G (Some (EWrap text inner)) = "Error: " ++ text).
Proof.
  intros G text inner. split.
  { unfold Errfmt.dispatch, Errfmt.sourceOrder.
    cbn [find]. rewrite !matches_through_EWrap. reflexivity. }
  unfold Errfmt.dispatch, Errfmt.sourceOrder, Errfmt.Format. cbn [find].
  change (As isWrongResourceTypeError (EWrap text inner))
    with (As isWrongResourceTypeError inner).
  change (As isAPIError (EWrap text inner)) with (As isAPIError inner).
  change (As isAuthError (EWrap text inner)) with (As isAuthError inner).
  change (As isRateLimitError (EWrap text inner)) with (As isRateLimitError inner).
  change (As isCircuitBreakerError (EWrap text inner))
    with (As isCircuitBreakerError inner).
  change (Is (EWrap text inner) addr_auth_ErrNotAuthenticated)
    with (Is inner addr_auth_ErrNotAuthenticated).
  unfold Errfmt.matches.
  destruct (As isWrongResourceTypeError inner); simpl;
    [split; [reflexivity|discriminate]|].
  destruct (As isAPIError inner); simpl; [split; [reflexivity|discriminate]|].
  destruct (As isAuthError inner); simpl; [split; [reflexivity|discriminate]|].
  destruct (As isRateLimitError inner); simpl; [split; [reflexivity|discriminate]|].
  destruct (As isCircuitBreakerError inner); simpl;
    [split; [reflexivity|discriminate]|].
  destruct (Is inner addr_auth_ErrNotAuthenticated); simpl;
    [split; [reflexivity|discriminate]|].
  split; [intros H; contradiction H; reflexivity|intros _].
  rewrite append_nil_r. reflexivity.
Qed.

Lemma Format_through_wrapper_witness :
  Errfmt.Format (fun _ => "")
    (Some (EWrap "authorization failed: rate limit exceeded, retry after 7 seconds"
             (ERateLimitError (RateLimitError.mk 7))))
  = Errfmt.Format (fun _ => "") (Some (ERateLimitError (RateLimitError.mk 7)))
  /\ Errfmt.Format (fun _ => "") (Some (EWrap "open keyring: not found" ErrNotFound))
     = "Error: open keyring: not found".
Proof.
  split.
  - apply (Format_through_wrapper (fun _ => "")
             "authorization failed: rate limit exceeded, retry after 7 seconds"
             (ERateLimitError (RateLimitError.mk 7))).
    vm_compute. discriminate.
  - apply (Format_through_wrapper (fun _ => "") "open keyring: not found" ErrNotFound).
    reflexivity.
Defined.

(** An [AuthError] is printed by the branch of its cause when the cause
    carries a [WrongResourceTypeError] or an [APIError]; otherwise it is
    printed as an authentication failure with the message of the cause, or
    "<nil>" when it has no cause. *)
Theorem Format_AuthError :
  forall (G : string -> string) (Err : option error),
    let out := Errfmt.Format G (Some (EAuthError Err)) in
    (forall w : WrongResourceTypeError.t,
        causeAs isWrongResourceTypeError Err = Some w ->
        out = Errfmt.formatWrongResourceTypeError w)
    /\ (forall a : APIError.t,
           causeAs isWrongResourceTypeError Err = None ->
           causeAs isAPIError Err = Some a ->
           out = Errfmt.formatAPIError G a)
    /\ (causeAs isWrongResourceTypeError Err = None ->
        causeAs isAPIError Err = None ->
        out = lit "Error: Authentication failed\n\n"
              ++ "  "
              ++ match Err with
                 | Some cause => Error cause
                 | None => "<nil>"
                 end
              ++ lit "\n\n"
              ++ lit "  Try running 'frontcli auth login' to re-authenticate.\n").
Proof.
  intros G Err out. subst out. unfold Errfmt.Format.
  assert (Hw : As isWrongResourceTypeError (EAuthError Err)
               = causeAs isWrongResourceTypeError Err)
    by (destruct Err; reflexivity).
  assert (Ha : As isAPIError (EAuthError Err) = causeAs isAPIError Err)
    by (destruct Err; reflexivity).
  assert (Hau : As isAuthError (EAuthError Err) = Some Err)
    by (destruct Err; reflexivity).
  rewrite Hw, Ha, Hau.
  split; [|split].
  - intros w ->. reflexivity.
  - intros a -> ->. reflexivity.
  - intros -> ->.
    unfold Errfmt.formatAuthError, WriteString.
    destruct Err as [cause|]; string_norm; reflexivity.
Qed.

Lemma Format_AuthError_witness :
  Errfmt.Format (fun _ => "") (Some (EAuthError None))
  = lit "Error: Authentication failed\n\n  <nil>\n\n  Try running 'frontcli auth login' to re-authenticate.\n"
  /\ Errfmt.Format (fun _ => "")
       (Some (EAuthError (Some (ENew addr_auth_ErrNotAuthenticated "not authenticated"))))
     = lit "Error: Authentication failed\n\n  not authenticated\n\n  Try running 'frontcli auth login' to re-authenticate.\n"
  /\ Errfmt.Format (fun _ => "")
       (Some (EAuthError (Some (EAPIError (APIError.mk 401 "unauthorized" "" "" "")))))
     = lit "Error: Not authenticated\n\n  Run 'frontcli auth login' to authenticate with Front.\n".
Proof.
  split; [|split].
  - apply (Format_AuthError (fun _ => "") None); reflexivity.
  - apply (Format_AuthError (fun _ => "")
             (Some (ENew addr_auth_ErrNotAuthenticated "not authenticated")));
      reflexivity.
  - apply (proj1 (proj2 (Format_AuthError (fun _ => "")
             (Some (EAPIError (APIError.mk 401 "unauthorized" "" "" "")))))
             (APIError.mk 401 "unauthorized" "" "" ""));
      reflexivity.
Defined.

(** For the statuses 401, 403 and 429 the text of an [APIError] is fixed: the
    message, the details and the identifier of the error are not printed. *)
Theorem formatAPIError_fixed_statuses :
  forall (G : string -> string) (e : APIError.t),
    (APIError.StatusCode e = 401%Z ->
     Errfmt.formatAPIError G e
     = lit "Error: Not authenticated\n\n  Run 'frontcli auth login' to authenticate with Front.\n")
    /\ (APIError.StatusCode e = 403%Z ->
        Errfmt.formatAPIError G e
        = lit "Error: Access denied (403)\n\n  You don't have permission to perform this action.\n  Check your account permissions in Front.\n")
    /\ (APIError.StatusCode e = 429%Z ->
        Errfmt.formatAPIError G e
        = lit "Error: Rate limit exceeded (429)\n\n  You've hit Front's API rate limit.\n  Tip: Use --limit flag to reduce result set size.\n").
Proof.
  intros G [code msg details id expected]. simpl.
  split; [|split]; intros ->; reflexivity.
Qed.

Lemma formatAPIError_fixed_statuses_witness :
  Errfmt.formatAPIError (fun _ => "message")
    (APIError.mk 403 "Forbidden" "scope missing" "cnv_abc123" "conversation")
  = Errfmt.formatAPIError (fun _ => "") (APIError.mk 403 "" "" "" "").
Proof.
  rewrite (proj1 (proj2 (formatAPIError_fixed_statuses (fun _ => "message")
             (APIError.mk 403 "Forbidden" "scope missing" "cnv_abc123" "conversation")))
             eq_refl).
  rewrite (proj1 (proj2 (formatAPIError_fixed_statuses (fun _ => "")
             (APIError.mk 403 "" "" "" ""))) eq_refl).
  reflexivity.
Defined.

(** For a status other than 401, 403, 404 and 429 the text of an [APIError]
    is its message with the status in parentheses, followed by the details,
    after an empty line, when there are any. *)
Theorem formatAPIError_other_status :
  forall (G : string -> string) (e : APIError.t),
    let code := APIError.StatusCode e in
    code <> 401%Z -> code <> 403%Z -> code <> 404%Z -> code <> 429%Z ->
    Errfmt.formatAPIError G e
    = "Error: " ++ APIError.Message e ++ " (" ++ Itoa code ++ lit ")\n"
      ++ (if String.eqb (APIError.Details e) "" then ""
          else lit "\n  " ++ APIError.Details e ++ lit "\n").
Proof.
  intros G [code msg details id expected]. simpl. intros H1 H2 H3 H4.
  unfold Errfmt.formatAPIError, WriteString. simpl.
  rewrite (proj2 (Z.eqb_neq code 401) H1), (proj2 (Z.eqb_neq code 403) H2),
    (proj2 (Z.eqb_neq code 404) H3), (proj2 (Z.eqb_neq code 429) H4).
  destruct (String.eqb details ""); string_norm; reflexivity.
Qed.

Lemma formatAPIError_other_status_witness :
  Errfmt.formatAPIError (fun _ => "")
    (APIError.mk 500 "Internal Server Error" "upstream timed out" "" "")
  = lit "Error: Internal Server Error (500)\n\n  upstream timed out\n".
Proof.
  apply (formatAPIError_other_status (fun _ => "")
           (APIError.mk 500 "Internal Server Error" "upstream timed out" "" ""));
    simpl; lia.
Defined.

(** For the status 404 without a requested identifier or without an expected
    resource, the generic sentence is printed whatever the identifier looks
    like; and [api.GetResourceType] has no part in the text of an [APIError]
    unless the status is 404 and both are there. *)
Theorem formatAPIError_without_hint :
  forall (G : string -> string) (e : APIError.t),
    (APIError.StatusCode e = 404%Z ->
     APIError.RequestedID e = "" \/ APIError.ExpectedResource e = "" ->
     Errfmt.formatAPIError G e
     = lit "Error: Not found (404)\n\n"
       ++ (if String.eqb (APIError.Details e) "" then ""
           else "  " ++ APIError.Details e ++ lit "\n\n")
       ++ lit "  The resource doesn't exist or you don't have access.\n")
    /\ (APIError.StatusCode e <> 404%Z
        \/ APIError.RequestedID e = "" \/ APIError.ExpectedResource e = "" ->
        forall G' : string -> string,
          Errfmt.formatAPIError G e = Errfmt.formatAPIError G' e).
Proof.
  intros G [code msg details id expected]. simpl.
  assert (Hhint : id = "" \/ expected = "" ->
                  (negb (String.eqb id "") && negb (String.eqb expected ""))%bool = false).
  { intros [-> | ->]; [reflexivity|]. rewrite andb_comm. reflexivity. }
  split.
  - intros -> H. unfold Errfmt.formatAPIError, WriteString. simpl.
    rewrite (Hhint H). simpl.
    destruct (String.eqb details ""); string_norm; reflexivity.
  - intros H G'. unfold Errfmt.formatAPIError, WriteString. simpl.
    destruct (code =? 401)%Z; [reflexivity|].
    destruct (code =? 403)%Z; [reflexivity|].
    destruct (Z.eqb_spec code 404) as [->|Hne]; [|reflexivity].
    destruct H as [H|H]; [contradiction H; reflexivity|].
    rewrite (Hhint H). reflexivity.
Qed.

Lemma formatAPIError_without_hint_witness :
  Errfmt.formatAPIError (fun _ => "message")
    (APIError.mk 404 "not found" "" "msg_abc123" "")
  = lit "Error: Not found (404)\n\n  The resource doesn't exist or you don't have access.\n"
  /\ Errfmt.formatAPIError (fun _ => "message")
       (APIError.mk 500 "boom" "" "msg_abc123" "conversation")
     = Errfmt.formatAPIError (fun _ => "")
         (APIError.mk 500 "boom" "" "msg_abc123" "conversation").
Proof.
  split.
  - apply (proj1 (formatAPIError_without_hint (fun _ => "message")
                    (APIError.mk 404 "not found" "" "msg_abc123" "")));
      [reflexivity|right; reflexivity].
  - apply (proj2 (formatAPIError_without_hint (fun _ => "message")
                    (APIError.mk 500 "boom" "" "msg_abc123" "conversation"))).
    left. simpl. lia.
Defined.

Lemma getCommands_key (kind : string) :
  In kind (map fst Errfmt.getCommands) ->
  exists cmd : string, In (kind, cmd) Errfmt.getCommands.
Proof.
  intros H. apply in_map_iff in H. destruct H as ([k cmd] & <- & H).
  exists cmd. exact H.
Qed.

(** [getSuggestionForResource] gives no suggestion exactly for the resource
    types other than the eight it knows; a suggestion is the command
    "frontcli", the command group of the type, "get" and the identifier. *)
Theorem getSuggestionForResource_cases :
  forall resourceType id : string,
    (Errfmt.getSuggestionForResource resourceType id = ""
     <-> ~ In resourceType (map fst Errfmt.getCommands))
    /\ (forall cmd : string,
           In (resourceType, cmd) Errfmt.getCommands ->
           Errfmt.getSuggestionForResource resourceType id
           = "frontcli " ++ cmd ++ " get " ++ id)
    /\ (Errfmt.getSuggestionForResource resourceType id <> "" ->
        HasPrefix (Errfmt.getSuggestionForResource resourceType id) "frontcli " = true
        /\ HasSuffix (Errfmt.getSuggestionForResource resourceType id) (" get " ++ id)
           = true).
Proof.
  intros resourceType id.
  assert (Hknown : In resourceType (map fst Errfmt.getCommands) ->
                   exists cmd, Errfmt.getSuggestionForResource resourceType id
                               = "frontcli " ++ cmd ++ " get " ++ id).
  { intros H. destruct (getCommands_key _ H) as [cmd Hcmd].
    exists cmd. apply getSuggestionForResource_known. exact Hcmd. }
  split; [|split].
  - split.
    + intros Hempty Hin. destruct (Hknown Hin) as [cmd E].
      rewrite E in Hempty. discriminate Hempty.
    + apply getSuggestionForResource_unknown.
  - intros cmd. apply getSuggestionForResource_known.
  - intros Hne.
    destruct (in_dec string_dec resourceType (map fst Errfmt.getCommands)) as [Hin|Hout].
    + destruct (Hknown Hin) as [cmd E]. rewrite E. split; [reflexivity|].
      change ("frontcli " ++ cmd ++ " get " ++ id)
        with ("frontcli " ++ (cmd ++ (" get " ++ id))).
      apply HasSuffix_app, HasSuffix_app, HasSuffix_refl.
    + contradiction Hne. apply getSuggestionForResource_unknown. exact Hout.
Qed.

Lemma getSuggestionForResource_cases_witness :
  Errfmt.getSuggestionForResource "inbox" "inb_55c8c149" = "frontcli inboxes get inb_55c8c149"
  /\ Errfmt.getSuggestionForResource "Inbox" "inb_55c8c149" = "".
Proof.
  split.
  - apply (proj1 (proj2 (getSuggestionForResource_cases "inbox" "inb_55c8c149")) "inboxes").
    simpl. tauto.
  - apply (proj1 (getSuggestionForResource_cases "Inbox" "inb_55c8c149")).
    simpl. intros H.
    repeat (destruct H as [H|H]; [discriminate H|]). exact H.
Defined.

(** [getWrongIDTypeHint] gives no hint exactly when the identifier has no
    known resource type or has the expected one; a hint starts with the
    explanation naming the identifier, its type and the expected type. *)
Theorem getWrongIDTypeHint_cases :
  forall (G : string -> string) (id expectedResource : string),
    (Errfmt.getWrongIDTypeHint G id expectedResource = ""
     <-> G id = "" \/ G id = expectedResource)
    /\ (G id <> "" -> G id <> expectedResource ->
        HasPrefix (Errfmt.getWrongIDTypeHint G id expectedResource)
          ("  '" ++ id ++ "' is a " ++ G id ++ " ID, but a " ++ expectedResource
           ++ lit " ID was expected.\n\n") = true).
Proof.
  intros G id expected. unfold Errfmt.getWrongIDTypeHint, WriteString.
  destruct (String.eqb_spec (G id) "") as [Hempty|Hknown]; simpl.
  { split; [|intros H; contradiction].
    split; [intros _; left; exact Hempty|reflexivity]. }
  destruct (String.eqb_spec (G id) expected) as [Hsame|Hdiff]; simpl.
  { split; [|intros _ H; contradiction].
    split; [intros _; right; exact Hsame|reflexivity]. }
  split.
  - split.
    + split_ifs; simpl; discriminate.
    + intros [H|H]; contradiction.
  - intros _ _.
    assert (E : forall tail : string,
               HasPrefix
                 (("  '" ++ id ++ "' is a " ++ G id ++ " ID, but a " ++ expected
                   ++ lit " ID was expected.\n\n") ++ tail)
                 ("  '" ++ id ++ "' is a " ++ G id ++ " ID, but a " ++ expected
                  ++ lit " ID was expected.\n\n") = true)
      by (intros tail; apply HasPrefix_app).
    split_ifs.
    + specialize (E (Sprintf (lit "  Try: %s\n")
                       [VString (Errfmt.getSuggestionForResource (G id) id)])).
      revert E. string_norm. intros E. exact E.
    + specialize (E ""). revert E. string_norm. intros E. exact E.
Qed.

Lemma getWrongIDTypeHint_cases_witness :
  HasPrefix
    (Errfmt.getWrongIDTypeHint (IdPrefix.GetResourceType IdPrefix.namedPrefixes 3)
       "tag_abc123" "conversation")
    (lit "  'tag_abc123' is a tag ID, but a conversation ID was expected.\n\n") = true.
Proof.
  apply (proj2 (getWrongIDTypeHint_cases (IdPrefix.GetResourceType IdPrefix.namedPrefixes 3)
                  "tag_abc123" "conversation"));
    vm_compute; discriminate.
Defined.

(** * Further properties of the errors of [internal/api] *)

(** The message of an [APIError] is its [Message], followed by a colon and
    the details when there are details; it always starts with [Message]. *)
Theorem APIError_Error_format :
  forall e : APIError.t,
    (APIError.Details e = "" -> APIError.Error e = APIError.Message e)
    /\ (APIError.Details e <> "" ->
        APIError.Error e = APIError.Message e ++ ": " ++ APIError.Details e)
    /\ HasPrefix (APIError.Error e) (APIError.Message e) = true.
Proof.
  intros [code msg details id expected]. unfold APIError.Error. simpl.
  destruct (String.eqb_spec details "") as [->|Hne]; simpl.
  - split; [reflexivity|]. split; [intros H; contradiction H; reflexivity|].
    rewrite <- (append_nil_r msg) at 1. apply HasPrefix_app.
  - split; [intros H; contradiction|]. split.
    + intros _. string_norm. reflexivity.
    + apply HasPrefix_app.
Qed.

Lemma APIError_Error_format_witness :
  APIError.Error (APIError.mk 404 "not found" "" "cnv_1" "conversation") = "not found"
  /\ APIError.Error (APIError.mk 400 "bad request" "missing field subject" "" "")
     = "bad request: missing field subject".
Proof.
  split.
  - apply (APIError_Error_format (APIError.mk 404 "not found" "" "cnv_1" "conversation")).
    reflexivity.
  - apply (proj1 (proj2 (APIError_Error_format
                    (APIError.mk 400 "bad request" "missing field subject" "" "")))).
    simpl. discriminate.
Defined.

(** The message of a [NotFoundError] is the resource, the quoted identifier
    when there is one, and "not found". *)
Theorem NotFoundError_Error_format :
  forall e : NotFoundError.t,
    (NotFoundError.ID e = "" ->
     NotFoundError.Error e = NotFoundError.Resource e ++ " not found")
    /\ (NotFoundError.ID e <> "" ->
        NotFoundError.Error e
        = NotFoundError.Resource e ++ " '" ++ NotFoundError.ID e ++ "' not found")
    /\ HasPrefix (NotFoundError.Error e) (NotFoundError.Resource e) = true
    /\ HasSuffix (NotFoundError.Error e) " not found" = true.
Proof.
  intros [resource id]. unfold NotFoundError.Error. simpl.
  destruct (String.eqb_spec id "") as [->|Hne]; simpl.
  - split; [intros _; reflexivity|].
    split; [intros H; contradiction H; reflexivity|].
    split; [apply HasPrefix_app|]. ends_with.
  - split; [intros H; contradiction|].
    split; [intros _; string_norm; reflexivity|].
    split; [apply HasPrefix_app|].
    apply HasSuffix_app, HasSuffix_cons, HasSuffix_cons, HasSuffix_app.
    ends_with.
Qed.

Lemma NotFoundError_Error_format_witness :
  NotFoundError.Error (NotFoundError.mk "conversation" "cnv_abc123")
  = "conversation 'cnv_abc123' not found"
  /\ NotFoundError.Error (NotFoundError.mk "token" "") = "token not found".
Proof.
  split.
  - apply (proj1 (proj2 (NotFoundError_Error_format
                    (NotFoundError.mk "conversation" "cnv_abc123")))).
    simpl. discriminate.
  - apply (NotFoundError_Error_format (NotFoundError.mk "token" "")).
    reflexivity.
Defined.

(** An [AuthError] reports its cause in its message, gives it back by
    [Unwrap], and is, for [errors.Is] and for [errors.As] towards another
    type, whatever its cause is; without a cause it prints "<nil>" and is
    nothing else. *)
Theorem AuthError_exposes_cause :
  forall Err : option error,
    Error (EAuthError Err)
    = "authentication error: "
      ++ match Err with
         | Some cause => Error cause
         | None => "<nil>"
         end
    /\ Unwrap (EAuthError Err) = Err
    /\ (forall target : errorString,
           Is (EAuthError Err) target
           = match Err with
             | Some cause => Is cause target
             | None => false
             end)
    /\ As isAPIError (EAuthError Err) = causeAs isAPIError Err
    /\ As isRateLimitError (EAuthError Err) = causeAs isRateLimitError Err
    /\ As isCircuitBreakerError (EAuthError Err) = causeAs isCircuitBreakerError Err
    /\ As isWrongResourceTypeError (EAuthError Err)
       = causeAs isWrongResourceTypeError Err
    /\ As isAuthError (EAuthError Err) = Some Err.
Proof.
  intros [cause|]; simpl; rewrite ?append_nil_r; repeat split.
Qed.

(** The exit code of an [APIError] is never the code of success nor the code
    of a usage error; it is the code for authentication exactly for the
    statuses 401 and 403, the code for not-found exactly for 404 and the code
    for rate limiting exactly for 429. *)
Theorem APIError_ExitCode_classes :
  forall e : APIError.t,
    let c := APIError.StatusCode e in
    APIError.ExitCode e <> ExitSuccess
    /\ APIError.ExitCode e <> ExitUsage
    /\ In (APIError.ExitCode e) [ExitError; ExitAuth; ExitNotFound; ExitRateLimit]
    /\ (APIError.ExitCode e = ExitAuth <-> c = 401%Z \/ c = 403%Z)
    /\ (APIError.ExitCode e = ExitNotFound <-> c = 404%Z)
    /\ (APIError.ExitCode e = ExitRateLimit <-> c = 429%Z)
    /\ (APIError.ExitCode e = ExitError <->
        c <> 401%Z /\ c <> 403%Z /\ c <> 404%Z /\ c <> 429%Z).
Proof.
  intros [c msg details id expected]. simpl.
  unfold APIError.ExitCode, StatusUnauthorized, StatusForbidden, StatusNotFound,
    StatusTooManyRequests, ExitSuccess, ExitUsage, ExitError, ExitAuth,
    ExitNotFound, ExitRateLimit.
  simpl.
  destruct (Z.eqb_spec c 401) as [->|H1]; simpl;
    [repeat split; try lia; try discriminate; try tauto; intros; lia|].
  destruct (Z.eqb_spec c 403) as [->|H2]; simpl;
    [repeat split; try lia; try discriminate; try tauto; intros; lia|].
  destruct (Z.eqb_spec c 404) as [->|H3]; simpl;
    [repeat split; try lia; try discriminate; try tauto; intros; lia|].
  destruct (Z.eqb_spec c 429) as [->|H4]; simpl;
    [repeat split; try lia; try discriminate; try tauto; intros; lia|].
  repeat split; try lia; try discriminate; try tauto; intros; lia.
Qed.

(** * Properties of the commands of [internal/cmd] *)

(** ** [auth login] *)

Lemma printTeammates_lines (teammates : list Cmd.Teammate.t) :
  forall w : string,
    Cmd.AuthLoginCmd.printTeammates w teammates
    = w ++ Cmd.joinLines
             (map (fun t =>
                     "  - " ++ Cmd.Teammate.Email t ++ " (" ++ Cmd.Teammate.FirstName t
                     ++ " " ++ Cmd.Teammate.LastName t ++ lit ")\n")
                teammates).
Proof.
  induction teammates as [|t rest IH]; intros w; simpl.
  - rewrite append_nil_r. reflexivity.
  - rewrite IH. string_norm. reflexivity.
Qed.

(** [fetchEmail] prefers the email of the account to everything else and
    then does not look at the teammates; it returns the error of [Me] as it
    is; and when the teammates cannot be listed, or there are none, it falls
    back to the identifier of the account, failing when that is empty too. *)
Theorem fetchEmail_precedence :
  forall (me : Cmd.result Cmd.Me.t) (teammates : Cmd.result (list Cmd.Teammate.t)),
    (forall err : error,
        me = Cmd.Failed err ->
        Cmd.AuthLoginCmd.fetchEmail me teammates = ("", Some err, ""))
    /\ (forall m : Cmd.Me.t,
           me = Cmd.Ok m -> Cmd.Me.Email m <> "" ->
           Cmd.AuthLoginCmd.fetchEmail me teammates = (Cmd.Me.Email m, None, ""))
    /\ (forall m : Cmd.Me.t,
           me = Cmd.Ok m -> Cmd.Me.Email m = "" ->
           (teammates = Cmd.Ok [] \/ exists err, teammates = Cmd.Failed err) ->
           Cmd.AuthLoginCmd.fetchEmail me teammates
           = if String.eqb (Cmd.Me.ID m) ""
             then ("", Some (Cmd.Errorf0 "could not determine account identity"), "")
             else (Cmd.Me.ID m, None, ""))
    /\ (forall (m : Cmd.Me.t) (t : Cmd.Teammate.t),
           me = Cmd.Ok m -> Cmd.Me.Email m = "" -> teammates = Cmd.Ok [t] ->
           Cmd.AuthLoginCmd.fetchEmail me teammates = (Cmd.Teammate.Email t, None, "")).
Proof.
  intros me teammates. split; [|split; [|split]].
  - intros err ->. reflexivity.
  - intros [id email] -> H. simpl in *.
    rewrite (string_eqb_false _ _ H). reflexivity.
  - intros [id email] -> H Hts. simpl in *. subst email. simpl.
    destruct Hts as [->|[err ->]]; simpl; destruct (String.eqb id ""); reflexivity.
  - intros [id email] t -> H ->. simpl in *. subst email. reflexivity.
Qed.

Lemma fetchEmail_precedence_witness :
  Cmd.AuthLoginCmd.fetchEmail (Cmd.Ok (Cmd.Me.mk "acc_1" "ops@example.com"))
    (Cmd.Failed ErrNotFound)
  = ("ops@example.com", None, "")
  /\ Cmd.AuthLoginCmd.fetchEmail (Cmd.Ok (Cmd.Me.mk "acc_1" "")) (Cmd.Ok [])
     = ("acc_1", None, "")
  /\ Cmd.AuthLoginCmd.fetchEmail (Cmd.Ok (Cmd.Me.mk "" "")) (Cmd.Failed ErrNotFound)
     = ("", Some (Cmd.Errorf0 "could not determine account identity"), "").
Proof.
  split; [|split].
  - apply (proj1 (proj2 (fetchEmail_precedence
                    (Cmd.Ok (Cmd.Me.mk "acc_1" "ops@example.com"))
                    (Cmd.Failed ErrNotFound)))
             (Cmd.Me.mk "acc_1" "ops@example.com")); [reflexivity|discriminate].
  - apply (proj1 (proj2 (proj2 (fetchEmail_precedence
                    (Cmd.Ok (Cmd.Me.mk "acc_1" "")) (Cmd.Ok []))))
             (Cmd.Me.mk "acc_1" "")); [reflexivity|reflexivity|left; reflexivity].
  - apply (proj1 (proj2 (proj2 (fetchEmail_precedence
                    (Cmd.Ok (Cmd.Me.mk "" "")) (Cmd.Failed ErrNotFound))))
             (Cmd.Me.mk "" "")); [reflexivity|reflexivity|].
    right. exists ErrNotFound. reflexivity.
Defined.

(** With two teammates or more and no email on the account, [fetchEmail]
    fails, after writing to the standard error a heading and one line for
    each teammate, in their order. *)
Theorem fetchEmail_multiple_teammates :
  forall (m : Cmd.Me.t) (results : list Cmd.Teammate.t),
    Cmd.Me.Email m = "" ->
    2 <= length results ->
    Cmd.AuthLoginCmd.fetchEmail (Cmd.Ok m) (Cmd.Ok results)
    = ("",
       Some (Cmd.Errorf0 "multiple teammates - specify --email"),
       lit "Multiple teammates found. Please re-run with --email flag:\n"
       ++ Cmd.joinLines
            (map (fun t =>
                    "  - " ++ Cmd.Teammate.Email t ++ " (" ++ Cmd.Teammate.FirstName t
                    ++ " " ++ Cmd.Teammate.LastName t ++ lit ")\n")
               results)).
Proof.
  intros [id email] results H Hlen. simpl in H. subst email.
  destruct results as [|t1 [|t2 rest]]; simpl in Hlen; try lia.
  unfold Cmd.AuthLoginCmd.fetchEmail.
  cbn [Cmd.Me.Email String.eqb negb length Nat.ltb Nat.leb].
  rewrite printTeammates_lines. reflexivity.
Qed.

Lemma fetchEmail_multiple_teammates_witness :
  Cmd.AuthLoginCmd.fetchEmail (Cmd.Ok (Cmd.Me.mk "acc_1" ""))
    (Cmd.Ok [Cmd.Teammate.mk "tea_1" "ann@example.com" "ann" "Ann" "Lee" true;
             Cmd.Teammate.mk "tea_2" "bob@example.com" "bob" "Bob" "Ray" false])
  = ("",
     Some (Cmd.Errorf0 "multiple teammates - specify --email"),
     lit "Multiple teammates found. Please re-run with --email flag:\n  - ann@example.com (Ann Lee)\n  - bob@example.com (Bob Ray)\n").
Proof.
  apply (fetchEmail_multiple_teammates (Cmd.Me.mk "acc_1" "")); [reflexivity|simpl; lia].
Defined.

(** Whatever the API answers, [fetchEmail] returns the empty string with
    every error and writes to the standard error only when it fails; it
    returns an empty identity without an error only for a single teammate
    whose email is empty. *)
Theorem fetchEmail_outcomes :
  forall (me : Cmd.result Cmd.Me.t) (teammates : Cmd.result (list Cmd.Teammate.t)),
    let '(email, err, errout) := Cmd.AuthLoginCmd.fetchEmail me teammates in
    (err <> None -> email = "")
    /\ (errout <> "" -> err <> None)
    /\ (err = None -> email = "" ->
        exists (m : Cmd.Me.t) (t : Cmd.Teammate.t),
          me = Cmd.Ok m /\ Cmd.Me.Email m = "" /\ teammates = Cmd.Ok [t]
          /\ Cmd.Teammate.Email t = "").
Proof.
  intros me teammates.
  destruct me as [[id email]|err].
  2: { cbn. repeat split; intros; congruence. }
  unfold Cmd.AuthLoginCmd.fetchEmail. cbn [Cmd.Me.Email Cmd.Me.ID].
  destruct (String.eqb_spec email "") as [->|Hemail]; cbn [negb].
  2: { repeat split; intros; congruence. }
  destruct teammates as [[|t1 [|t2 rest]]|err].
  - cbn [length Nat.ltb Nat.leb].
    destruct (String.eqb_spec id "") as [->|Hid]; cbn [negb];
      repeat split; intros; congruence.
  - repeat split; intros; try congruence.
    exists (Cmd.Me.mk id ""), t1. repeat split. assumption.
  - cbn [length Nat.ltb Nat.leb].
    repeat split; intros; congruence.
  - destruct (String.eqb_spec id "") as [->|Hid]; cbn [negb];
      repeat split; intros; congruence.
Qed.

Ltac errorf := unfold Cmd.Errorf; string_norm.

(** [auth login] stores nothing and prints nothing when the authorization
    fails, when the key ring cannot be opened, and when no identity is given
    and none can be fetched; the error returned wraps the cause, and its
    message is the cause's after the name of the step that failed. *)
Theorem AuthLoginCmd_Run_failures :
  forall (Store : Type)
         (Authorize : Cmd.AuthorizeOptions.t -> Cmd.result string)
         (OpenDefault : option error)
         (SetToken : string -> string -> Cmd.Token.t -> Store -> Store * option error)
         (clientMe : string -> string -> Cmd.result Cmd.Me.t)
         (clientListTeammates : string -> string -> Cmd.result (list Cmd.Teammate.t))
         (Now : Z) (c : Cmd.AuthLoginCmd.t) (flags : option Cmd.RootFlags.t) (s : Store),
    let run :=
      Cmd.AuthLoginCmd.Run Store Authorize OpenDefault SetToken clientMe
        clientListTeammates Now c flags s in
    let options :=
      Cmd.AuthorizeOptions.mk (Cmd.AuthLoginCmd.ClientName c)
        (Cmd.AuthLoginCmd.ForceConsent c) (Cmd.AuthLoginCmd.Manual c) 180000000000 in
    (forall err : error,
        Authorize options = Cmd.Failed err ->
        run = (s, Cmd.mkOutcome
                    (Some (EWrap ("authorization failed: " ++ Error err) err)) "" ""))
    /\ (forall (refreshToken : string) (err : error),
           Authorize options = Cmd.Ok refreshToken ->
           OpenDefault = Some err ->
           run = (s, Cmd.mkOutcome
                       (Some (EWrap ("open keyring: " ++ Error err) err)) "" ""))
    /\ (forall (refreshToken : string) (err : error) (errout : string),
           Authorize options = Cmd.Ok refreshToken ->
           OpenDefault = None ->
           Cmd.AuthLoginCmd.Email c = "" ->
           (forall f, flags = Some f -> Cmd.RootFlags.Account f = "") ->
           Cmd.AuthLoginCmd.fetchEmail
             (clientMe (Cmd.AuthLoginCmd.ClientName c) refreshToken)
             (clientListTeammates (Cmd.AuthLoginCmd.ClientName c) refreshToken)
           = ("", Some err, errout) ->
           run = (s, Cmd.mkOutcome
                       (Some (EWrap ("could not determine your identity: " ++ Error err
                                     ++ lit "\nUse --email flag to specify your email")
                                err))
                       "" errout)).
Proof.
  intros Store Authorize OpenDefault SetToken clientMe clientListTeammates Now
    c flags s run options.
  subst run options. unfold Cmd.AuthLoginCmd.Run.
  change (3 * Cmd.Minute)%Z with 180000000000%Z.
  split; [|split].
  - intros err ->. errorf. reflexivity.
  - intros refreshToken err -> ->. errorf. reflexivity.
  - intros refreshToken err errout -> -> Hemail Hflags Hfetch.
    rewrite Hemail.
    assert (Hchosen :
              match flags with
              | Some flags0 =>
                  if (String.eqb "" "" && negb (String.eqb (Cmd.RootFlags.Account flags0) ""))%bool
                  then Cmd.RootFlags.Account flags0
                  else ""
              | None => ""
              end = "").
    { destruct flags as [f|]; [|reflexivity].
      rewrite (Hflags f eq_refl). reflexivity. }
    rewrite Hchosen. cbn [String.eqb]. rewrite Hfetch.
    errorf. reflexivity.
Qed.

Lemma AuthLoginCmd_Run_failures_witness :
  Cmd.AuthLoginCmd.Run (list Cmd.Token.t)
    (fun _ => Cmd.Ok "refresh-1") None
    (fun client email tok s => (tok :: s, None))
    (fun _ _ => Cmd.Failed (EAPIError (APIError.mk 401 "unauthorized" "" "" "")))
    (fun _ _ => Cmd.Ok [])
    0 (Cmd.AuthLoginCmd.mk "" "default" false false) None []
  = ([], Cmd.mkOutcome
           (Some (EWrap (lit "could not determine your identity: unauthorized\nUse --email flag to specify your email")
                    (EAPIError (APIError.mk 401 "unauthorized" "" "" ""))))
           "" "").
Proof.
  apply (proj2 (proj2 (AuthLoginCmd_Run_failures (list Cmd.Token.t)
           (fun _ => Cmd.Ok "refresh-1") None
           (fun client email tok s => (tok :: s, None))
           (fun _ _ => Cmd.Failed (EAPIError (APIError.mk 401 "unauthorized" "" "" "")))
           (fun _ _ => Cmd.Ok [])
           0 (Cmd.AuthLoginCmd.mk "" "default" false false) None []))
           "refresh-1" (EAPIError (APIError.mk 401 "unauthorized" "" "" "")) "");
    try reflexivity.
  intros f H. discriminate H.
Defined.

(** When the authorization succeeds and the key ring opens, [auth login]
    stores one token, under the client name and the identity: the email of
    the flag when it is given, else the account of the root flags when there
    is one, else what [fetchEmail] returns.  The token holds that identity,
    the refresh token and the current time; with an identity given by a flag
    the API is not asked. *)
Theorem AuthLoginCmd_Run_stores_token :
  forall (Store : Type)
         (Authorize : Cmd.AuthorizeOptions.t -> Cmd.result string)
         (SetToken : string -> string -> Cmd.Token.t -> Store -> Store * option error)
         (clientMe : string -> string -> Cmd.result Cmd.Me.t)
         (clientListTeammates : string -> string -> Cmd.result (list Cmd.Teammate.t))
         (Now : Z) (c : Cmd.AuthLoginCmd.t) (flags : option Cmd.RootFlags.t) (s : Store)
         (refreshToken : string),
    Authorize
      (Cmd.AuthorizeOptions.mk (Cmd.AuthLoginCmd.ClientName c)
         (Cmd.AuthLoginCmd.ForceConsent c) (Cmd.AuthLoginCmd.Manual c) 180000000000)
    = Cmd.Ok refreshToken ->
    let run :=
      Cmd.AuthLoginCmd.Run Store Authorize None SetToken clientMe
        clientListTeammates Now c flags s in
    let stored (email errout : string) :=
      let set :=
        SetToken (Cmd.AuthLoginCmd.ClientName c) email
          (Cmd.Token.mk "" email refreshToken Now) s in
      (fst set,
       match snd set with
       | Some err =>
           Cmd.mkOutcome (Some (EWrap ("store token: " ++ Error err) err)) "" errout
       | None =>
           Cmd.mkOutcome None ("Successfully authenticated as " ++ email ++ lit "\n")
             errout
       end) in
    (Cmd.AuthLoginCmd.Email c <> "" -> run = stored (Cmd.AuthLoginCmd.Email c) "")
    /\ (forall f : Cmd.RootFlags.t,
           Cmd.AuthLoginCmd.Email c = "" -> flags = Some f ->
           Cmd.RootFlags.Account f <> "" ->
           run = stored (Cmd.RootFlags.Account f) "")
    /\ (forall email errout : string,
           Cmd.AuthLoginCmd.Email c = "" ->
           (forall f, flags = Some f -> Cmd.RootFlags.Account f = "") ->
           Cmd.AuthLoginCmd.fetchEmail
             (clientMe (Cmd.AuthLoginCmd.ClientName c) refreshToken)
             (clientListTeammates (Cmd.AuthLoginCmd.ClientName c) refreshToken)
           = (email, None, errout) ->
           run = stored email errout).
Proof.
  intros Store Authorize SetToken clientMe clientListTeammates Now c flags s
    refreshToken Hauth run stored.
  subst run stored. unfold Cmd.AuthLoginCmd.Run.
  change (3 * Cmd.Minute)%Z with 180000000000%Z. rewrite Hauth.
  assert (Hfinish :
            forall email errout : string,
              (let (s', err) :=
                 SetToken (Cmd.AuthLoginCmd.ClientName c) email
                   (Cmd.Token.mk "" email refreshToken Now) s in
               match err with
               | Some err0 =>
                   (s', Cmd.mkOutcome (Some (Cmd.Errorf "store token: %w" err0)) "" errout)
               | None =>
                   (s', Cmd.mkOutcome None
                          (Sprintf (lit "Successfully authenticated as %s\n")
                             [VString email]) errout)
               end)
              = (fst (SetToken (Cmd.AuthLoginCmd.ClientName c) email
                        (Cmd.Token.mk "" email refreshToken Now) s),
                 match snd (SetToken (Cmd.AuthLoginCmd.ClientName c) email
                              (Cmd.Token.mk "" email refreshToken Now) s) with
                 | Some err =>
                     Cmd.mkOutcome (Some (EWrap ("store token: " ++ Error err) err)) ""
                       errout
                 | None =>
                     Cmd.mkOutcome None
                       ("Successfully authenticated as " ++ email ++ lit "\n") errout
                 end)).
  { intros email errout.
    destruct (SetToken (Cmd.AuthLoginCmd.ClientName c) email
                (Cmd.Token.mk "" email refreshToken Now) s) as [s' [err|]];
      errorf; reflexivity. }
  split; [|split].
  - intros Hemail.
    assert (Hchosen :
              match flags with
              | Some flags0 =>
                  if (String.eqb (Cmd.AuthLoginCmd.Email c) ""
                      && negb (String.eqb (Cmd.RootFlags.Account flags0) ""))%bool
                  then Cmd.RootFlags.Account flags0
                  else Cmd.AuthLoginCmd.Email c
              | None => Cmd.AuthLoginCmd.Email c
              end = Cmd.AuthLoginCmd.Email c).
    { destruct flags as [f|]; [|reflexivity].
      rewrite (string_eqb_false _ _ Hemail). reflexivity. }
    rewrite Hchosen, (string_eqb_false _ _ Hemail). apply Hfinish.
  - intros f Hemail -> Haccount.
    rewrite Hemail. cbn [String.eqb andb].
    rewrite (string_eqb_false _ _ Haccount). cbn [negb].
    rewrite (string_eqb_false _ _ Haccount). apply Hfinish.
  - intros email errout Hemail Hflags Hfetch.
    rewrite Hemail.
    assert (Hchosen :
              match flags with
              | Some flags0 =>
                  if (String.eqb "" "" && negb (String.eqb (Cmd.RootFlags.Account flags0) ""))%bool
                  then Cmd.RootFlags.Account flags0
                  else ""
              | None => ""
              end = "").
    { destruct flags as [f|]; [|reflexivity].
      rewrite (Hflags f eq_refl). reflexivity. }
    rewrite Hchosen. cbn [String.eqb]. rewrite Hfetch. apply Hfinish.
Qed.

Lemma AuthLoginCmd_Run_stores_token_witness :
  Cmd.AuthLoginCmd.Run (list (string * string * Cmd.Token.t))
    (fun _ => Cmd.Ok "refresh-1") None
    (fun client email tok s => ((client, email, tok) :: s, None))
    (fun _ _ => Cmd.Failed ErrNotFound)
    (fun _ _ => Cmd.Failed ErrNotFound)
    1700000000 (Cmd.AuthLoginCmd.mk "ann@example.com" "default" false false)
    (Some (Cmd.RootFlags.mk "default" "bob@example.com")) []
  = ([("default", "ann@example.com",
       Cmd.Token.mk "" "ann@example.com" "refresh-1" 1700000000)],
     Cmd.mkOutcome None (lit "Successfully authenticated as ann@example.com\n") "").
Proof.
  apply (proj1 (AuthLoginCmd_Run_stores_token (list (string * string * Cmd.Token.t))
           (fun _ => Cmd.Ok "refresh-1")
           (fun client email tok s => ((client, email, tok) :: s, None))
           (fun _ _ => Cmd.Failed ErrNotFound)
           (fun _ _ => Cmd.Failed ErrNotFound)
           1700000000 (Cmd.AuthLoginCmd.mk "ann@example.com" "default" false false)
           (Some (Cmd.RootFlags.mk "default" "bob@example.com")) []
           "refresh-1" eq_refl)).
  simpl. discriminate.
Defined.

(** ** [auth logout] *)

(** With an email given and without the flag for all accounts, [auth logout]
    removes the token of that email under the client name as it was given,
    without listing the tokens; it reports the removal, or returns the error
    of the removal wrapped. *)
Theorem AuthLogoutCmd_Run_with_email :
  forall (Store : Type)
         (ListTokens : Store -> Cmd.result (list Cmd.Token.t))
         (DeleteToken : string -> string -> Store -> Store * option error)
         (NormalizeClientNameOrDefault : string -> Cmd.result string)
         (c : Cmd.AuthLogoutCmd.t) (s : Store),
    Cmd.AuthLogoutCmd.All c = false ->
    Cmd.AuthLogoutCmd.Email c <> "" ->
    let deleted :=
      DeleteToken (Cmd.AuthLogoutCmd.ClientName c) (Cmd.AuthLogoutCmd.Email c) s in
    Cmd.AuthLogoutCmd.Run Store None ListTokens DeleteToken
      NormalizeClientNameOrDefault c s
    = (fst deleted,
       match snd deleted with
       | Some err =>
           Cmd.mkOutcome (Some (EWrap ("remove token: " ++ Error err) err)) "" ""
       | None =>
           Cmd.mkOutcome None
             ("Logged out " ++ Cmd.AuthLogoutCmd.Email c ++ lit "\n") ""
       end).
Proof.
  intros Store ListTokens DeleteToken Normalize c s Hall Hemail deleted.
  subst deleted. unfold Cmd.AuthLogoutCmd.Run, Cmd.AuthLogoutCmd.remove.
  rewrite Hall, (string_eqb_false _ _ Hemail).
  destruct (DeleteToken (Cmd.AuthLogoutCmd.ClientName c) (Cmd.AuthLogoutCmd.Email c) s)
    as [s' [err|]]; errorf; reflexivity.
Qed.

Lemma AuthLogoutCmd_Run_with_email_witness :
  Cmd.AuthLogoutCmd.Run (list (string * string)) None
    (fun _ => Cmd.Failed ErrNotFound)
    (fun client email s => ((client, email) :: s, None))
    (fun _ => Cmd.Failed ErrNotFound)
    (Cmd.AuthLogoutCmd.mk "ann@example.com" "Work" false) []
  = ([("Work", "ann@example.com")],
     Cmd.mkOutcome None (lit "Logged out ann@example.com\n") "").
Proof.
  apply (AuthLogoutCmd_Run_with_email (list (string * string))
           (fun _ => Cmd.Failed ErrNotFound)
           (fun client email s => ((client, email) :: s, None))
           (fun _ => Cmd.Failed ErrNotFound)
           (Cmd.AuthLogoutCmd.mk "ann@example.com" "Work" false) []);
    [reflexivity|simpl; discriminate].
Defined.

Lemma last_cons_default {A : Type} (l : list A) :
  forall a d : A, last (a :: l) d = last l a.
Proof.
  induction l as [|b l IH]; intros a d.
  - reflexivity.
  - change (last (a :: b :: l) d) with (last (b :: l) d).
    rewrite (IH b d), (IH b a). reflexivity.
Qed.

Lemma findOnly_filter (normalizedClient : string) (tokens : list Cmd.Token.t) :
  forall (match_ : Cmd.Token.t) (count : Z),
    Cmd.AuthLogoutCmd.findOnly normalizedClient tokens match_ count
    = (last (filter (fun tok => String.eqb (Cmd.Token.Client tok) normalizedClient)
               tokens) match_,
       (count
        + Z.of_nat
            (length
               (filter (fun tok => String.eqb (Cmd.Token.Client tok) normalizedClient)
                  tokens)))%Z).
Proof.
  induction tokens as [|tok rest IH]; intros match_ count.
  - simpl. rewrite Z.add_0_r. reflexivity.
  - cbn [Cmd.AuthLogoutCmd.findOnly filter].
    destruct (String.eqb (Cmd.Token.Client tok) normalizedClient).
    + rewrite IH, last_cons_default. cbn [length]. f_equal. lia.
    + apply IH.
Qed.

(** Without an email and without the flag for all accounts, [auth logout]
    looks for the only token of the client, by its normalized name.  With
    exactly one it removes that token's email under the client name as
    given; with none, or with several, it fails and the key ring is left as
    it was. *)
Theorem AuthLogoutCmd_Run_only_account :
  forall (Store : Type)
         (ListTokens : Store -> Cmd.result (list Cmd.Token.t))
         (DeleteToken : string -> string -> Store -> Store * option error)
         (NormalizeClientNameOrDefault : string -> Cmd.result string)
         (c : Cmd.AuthLogoutCmd.t) (s : Store)
         (tokens : list Cmd.Token.t) (normalizedClient : string),
    Cmd.AuthLogoutCmd.All c = false ->
    Cmd.AuthLogoutCmd.Email c = "" ->
    ListTokens s = Cmd.Ok tokens ->
    NormalizeClientNameOrDefault (Cmd.AuthLogoutCmd.ClientName c)
    = Cmd.Ok normalizedClient ->
    let run :=
      Cmd.AuthLogoutCmd.Run Store None ListTokens DeleteToken
        NormalizeClientNameOrDefault c s in
    let mine :=
      filter (fun tok => String.eqb (Cmd.Token.Client tok) normalizedClient) tokens in
    (mine = [] ->
     run = (s, Cmd.mkOutcome
                 (Some (Cmd.Errorf0 "no authenticated accounts found")) "" ""))
    /\ (forall tok : Cmd.Token.t,
           mine = [tok] ->
           let deleted :=
             DeleteToken (Cmd.AuthLogoutCmd.ClientName c) (Cmd.Token.Email tok) s in
           run = (fst deleted,
                  match snd deleted with
                  | Some err =>
                      Cmd.mkOutcome (Some (EWrap ("remove token: " ++ Error err) err))
                        "" ""
                  | None =>
                      Cmd.mkOutcome None
                        ("Logged out " ++ Cmd.Token.Email tok ++ lit "\n") ""
                  end))
    /\ (2 <= length mine ->
        run = (s, Cmd.mkOutcome
                    (Some (Cmd.Errorf0
                             "multiple accounts found; specify --email or use --all"))
                    "" "")).
Proof.
  intros Store ListTokens DeleteToken Normalize c s tokens normalizedClient
    Hall Hemail Hlist Hnorm run mine.
  subst run. unfold Cmd.AuthLogoutCmd.Run.
  rewrite Hall, Hemail, Hlist, Hnorm. cbn [String.eqb].
  rewrite findOnly_filter. fold mine. cbn [Z.add].
  split; [|split].
  - intros ->. reflexivity.
  - intros tok ->. cbn [last length Z.of_nat Pos.of_succ_nat Z.eqb Z.ltb Z.compare
                          Pos.compare Pos.compare_cont].
    unfold Cmd.AuthLogoutCmd.remove.
    destruct (DeleteToken (Cmd.AuthLogoutCmd.ClientName c) (Cmd.Token.Email tok) s)
      as [s' [err|]]; errorf; reflexivity.
  - intros Hlen.
    destruct (Z.eqb_spec (Z.of_nat (length mine)) 0) as [H0|_]; [lia|].
    destruct (Z.ltb_spec 1 (Z.of_nat (length mine))) as [_|H1]; [reflexivity|lia].
Qed.

Lemma AuthLogoutCmd_Run_only_account_witness :
  let tokens :=
    [Cmd.Token.mk "default" "ann@example.com" "r1" 0;
     Cmd.Token.mk "work" "bob@example.com" "r2" 0] in
  Cmd.AuthLogoutCmd.Run (list (string * string)) None
    (fun _ => Cmd.Ok tokens)
    (fun client email s => ((client, email) :: s, None))
    (fun name => Cmd.Ok "work")
    (Cmd.AuthLogoutCmd.mk "" "Work" false) []
  = ([("Work", "bob@example.com")],
     Cmd.mkOutcome None (lit "Logged out bob@example.com\n") "").
Proof.
  intros tokens.
  apply (proj1 (proj2 (AuthLogoutCmd_Run_only_account (list (string * string))
           (fun _ => Cmd.Ok tokens)
           (fun client email s => ((client, email) :: s, None))
           (fun name => Cmd.Ok "work")
           (Cmd.AuthLogoutCmd.mk "" "Work" false) [] tokens "work"
           eq_refl eq_refl eq_refl eq_refl))
           (Cmd.Token.mk "work" "bob@example.com" "r2" 0)).
  reflexivity.
Defined.

Lemma deleteAll_spec (Store : Type)
  (DeleteToken : string -> string -> Store -> Store * option error)
  (normalizedClient : string) (tokens : list Cmd.Token.t) :
  forall (s : Store) (count : Z) (errout : string),
    let mine :=
      filter (fun tok => String.eqb (Cmd.Token.Client tok) normalizedClient) tokens in
    let r := Cmd.AuthLogoutCmd.deleteAll Store DeleteToken normalizedClient tokens s
               count errout in
    fst (fst r)
    = fold_left (fun st tok =>
                   fst (DeleteToken (Cmd.Token.Client tok) (Cmd.Token.Email tok) st))
        mine s
    /\ (count <= snd (fst r) <= count + Z.of_nat (length mine))%Z
    /\ ((forall client email st, snd (DeleteToken client email st) = None) ->
        snd (fst r) = (count + Z.of_nat (length mine))%Z /\ snd r = errout).
Proof.
  induction tokens as [|tok rest IH]; intros s count errout; cbn zeta.
  - simpl. repeat split; lia.
  - cbn [Cmd.AuthLogoutCmd.deleteAll filter].
    destruct (String.eqb (Cmd.Token.Client tok) normalizedClient).
    + cbn [fold_left length].
      destruct (DeleteToken (Cmd.Token.Client tok) (Cmd.Token.Email tok) s)
        as [s' err] eqn:E.
      cbn [fst].
      destruct err as [err|].
      * destruct (IH s' count
                    (errout ++ Sprintf (lit "Warning: failed to remove token for %s: %v\n")
                                 [VString (Cmd.Token.Email tok);
                                  VError (Some (Error err))]))
          as (H1 & H2 & _).
        split; [exact H1|]. split; [lia|].
        intros Hok. specialize (Hok (Cmd.Token.Client tok) (Cmd.Token.Email tok) s).
        rewrite E in Hok. discriminate Hok.
      * destruct (IH s' (count + 1)%Z errout) as (H1 & H2 & H3).
        split; [exact H1|]. split; [lia|].
        intros Hok. destruct (H3 Hok) as [H4 H5]. split; [lia|exact H5].
    + apply IH.
Qed.

(** With the flag for all accounts, [auth logout] removes the tokens of the
    client, found by its normalized name, in the order of the list, and no
    token of another client; it returns no error even when removals fail,
    printing a warning for each failure and the number of tokens removed,
    which is the number of the client's tokens when every removal succeeds. *)
Theorem AuthLogoutCmd_Run_all :
  forall (Store : Type)
         (ListTokens : Store -> Cmd.result (list Cmd.Token.t))
         (DeleteToken : string -> string -> Store -> Store * option error)
         (NormalizeClientNameOrDefault : string -> Cmd.result string)
         (c : Cmd.AuthLogoutCmd.t) (s : Store)
         (tokens : list Cmd.Token.t) (normalizedClient : string),
    Cmd.AuthLogoutCmd.All c = true ->
    ListTokens s = Cmd.Ok tokens ->
    NormalizeClientNameOrDefault (Cmd.AuthLogoutCmd.ClientName c)
    = Cmd.Ok normalizedClient ->
    let run :=
      Cmd.AuthLogoutCmd.Run Store None ListTokens DeleteToken
        NormalizeClientNameOrDefault c s in
    let mine :=
      filter (fun tok => String.eqb (Cmd.Token.Client tok) normalizedClient) tokens in
    Cmd.ret (snd run) = None
    /\ fst run
       = fold_left (fun st tok =>
                      fst (DeleteToken (Cmd.Token.Client tok) (Cmd.Token.Email tok) st))
           mine s
    /\ (exists count : Z,
           (0 <= count <= Z.of_nat (length mine))%Z
           /\ Cmd.stdout (snd run)
              = "Logged out " ++ Itoa count ++ lit " account(s)\n")
    /\ ((forall client email st, snd (DeleteToken client email st) = None) ->
        Cmd.stdout (snd run)
        = "Logged out " ++ Itoa (Z.of_nat (length mine)) ++ lit " account(s)\n"
        /\ Cmd.stderr (snd run) = "").
Proof.
  intros Store ListTokens DeleteToken Normalize c s tokens normalizedClient
    Hall Hlist Hnorm run mine.
  subst run. unfold Cmd.AuthLogoutCmd.Run. rewrite Hall, Hlist, Hnorm.
  pose proof (deleteAll_spec Store DeleteToken normalizedClient tokens s 0 "")
    as H. cbn zeta in H. fold mine in H.
  destruct (Cmd.AuthLogoutCmd.deleteAll Store DeleteToken normalizedClient tokens s 0 "")
    as [[s' count] errout].
  cbn [fst snd] in *. destruct H as (H1 & H2 & H3).
  split; [reflexivity|]. split; [exact H1|]. split.
  - exists count. split; [lia|]. string_norm. reflexivity.
  - intros Hok. destruct (H3 Hok) as [H4 H5].
    cbn [Cmd.stdout Cmd.stderr]. rewrite H4, H5. cbn [Z.add].
    split; [string_norm; reflexivity|reflexivity].
Qed.

Lemma AuthLogoutCmd_Run_all_witness :
  let tokens :=
    [Cmd.Token.mk "work" "ann@example.com" "r1" 0;
     Cmd.Token.mk "default" "cy@example.com" "r3" 0;
     Cmd.Token.mk "work" "bob@example.com" "r2" 0] in
  let run :=
    Cmd.AuthLogoutCmd.Run (list (string * string)) None
      (fun _ => Cmd.Ok tokens)
      (fun client email s => ((client, email) :: s, None))
      (fun name => Cmd.Ok "work")
      (Cmd.AuthLogoutCmd.mk "" "Work" true) [] in
  fst run = [("work", "bob@example.com"); ("work", "ann@example.com")]
  /\ Cmd.stdout (snd run) = lit "Logged out 2 account(s)\n"
  /\ Cmd.stderr (snd run) = "".
Proof.
  intros tokens run.
  pose proof (AuthLogoutCmd_Run_all (list (string * string))
                (fun _ => Cmd.Ok tokens)
                (fun client email s => ((client, email) :: s, None))
                (fun name => Cmd.Ok "work")
                (Cmd.AuthLogoutCmd.mk "" "Work" true) [] tokens "work"
                eq_refl eq_refl eq_refl) as (_ & Hstore & _ & Hcount).
  split; [exact Hstore|].
  apply Hcount. intros client email st. reflexivity.
Defined.

(** ** [auth status] *)

Lemma countTokens_filter (normalizedClient : string) (tokens : list Cmd.Token.t) :
  forall count : Z,
    Cmd.AuthStatusCmd.countTokens normalizedClient tokens count
    = (count
       + Z.of_nat
           (length
              (filter (fun tok => String.eqb (Cmd.Token.Client tok) normalizedClient)
                 tokens)))%Z.
Proof.
  induction tokens as [|tok rest IH]; intros count.
  - simpl. lia.
  - cbn [Cmd.AuthStatusCmd.countTokens filter].
    destruct (String.eqb (Cmd.Token.Client tok) normalizedClient).
    + rewrite IH. cbn [length]. lia.
    + apply IH.
Qed.

Lemma printTokens_filter (formatDay : Z -> string) (normalizedClient : string)
  (tokens : list Cmd.Token.t) :
  forall out : string,
    Cmd.AuthStatusCmd.printTokens formatDay normalizedClient tokens out
    = out
      ++ Cmd.joinLines
           (map (fun tok =>
                   "  - " ++ Cmd.Token.Email tok ++ " (since "
                   ++ formatDay (Cmd.Token.CreatedAt tok) ++ lit ")\n")
              (filter (fun tok => String.eqb (Cmd.Token.Client tok) normalizedClient)
                 tokens)).
Proof.
  induction tokens as [|tok rest IH]; intros out.
  - simpl. rewrite append_nil_r. reflexivity.
  - cbn [Cmd.AuthStatusCmd.printTokens filter].
    destruct (String.eqb (Cmd.Token.Client tok) normalizedClient).
    + rewrite IH. string_norm. reflexivity.
    + apply IH.
Qed.

(** [auth status] reports "Not configured" without opening the key ring when
    the client has no credentials.  With credentials it reports that nobody
    is authenticated exactly when no stored token belongs to the client, by
    its normalized name; otherwise the number it prints is the number of
    account lines that follow, one for each token of the client, in the
    order of the list. *)
Theorem AuthStatusCmd_Run_report :
  forall (ClientCredentialsExists : string -> Cmd.result bool)
         (OpenDefault : option error)
         (ListTokens : Cmd.result (list Cmd.Token.t))
         (NormalizeClientNameOrDefault : string -> Cmd.result string)
         (formatDay : Z -> string) (c : Cmd.AuthStatusCmd.t),
    let run :=
      Cmd.AuthStatusCmd.Run ClientCredentialsExists OpenDefault ListTokens
        NormalizeClientNameOrDefault formatDay c in
    (ClientCredentialsExists (Cmd.AuthStatusCmd.ClientName c) = Cmd.Ok false ->
     run = Cmd.mkOutcome None
             (lit "Not configured\nRun 'frontcli auth setup <client_id>' to configure.\n")
             "")
    /\ (forall (tokens : list Cmd.Token.t) (normalizedClient : string),
           ClientCredentialsExists (Cmd.AuthStatusCmd.ClientName c) = Cmd.Ok true ->
           OpenDefault = None ->
           ListTokens = Cmd.Ok tokens ->
           NormalizeClientNameOrDefault (Cmd.AuthStatusCmd.ClientName c)
           = Cmd.Ok normalizedClient ->
           let mine :=
             filter (fun tok => String.eqb (Cmd.Token.Client tok) normalizedClient)
               tokens in
           run = Cmd.mkOutcome None
                   (match mine with
                    | [] =>
                        lit "OAuth credentials configured but not authenticated.\nRun 'frontcli auth login' to authenticate.\n"
                    | _ =>
                        "Authenticated: " ++ Itoa (Z.of_nat (length mine))
                        ++ lit " account(s)\n"
                        ++ Cmd.joinLines
                             (map (fun tok =>
                                     "  - " ++ Cmd.Token.Email tok ++ " (since "
                                     ++ formatDay (Cmd.Token.CreatedAt tok) ++ lit ")\n")
                                mine)
                    end)
                   "").
Proof.
  intros Exists OpenDefault ListTokens Normalize formatDay c run. subst run.
  unfold Cmd.AuthStatusCmd.Run. split.
  - intros ->. reflexivity.
  - intros tokens normalizedClient -> -> -> ->. cbn [negb].
    rewrite countTokens_filter, printTokens_filter. cbn [Z.add].
    destruct (filter (fun tok => String.eqb (Cmd.Token.Client tok) normalizedClient)
                tokens) as [|tok rest].
    + reflexivity.
    + destruct (Z.eqb_spec (Z.of_nat (length (tok :: rest))) 0) as [H|_];
        [simpl in H; lia|].
      f_equal. string_norm. reflexivity.
Qed.

Lemma AuthStatusCmd_Run_report_witness :
  Cmd.AuthStatusCmd.Run (fun _ => Cmd.Ok true) None
    (Cmd.Ok [Cmd.Token.mk "work" "ann@example.com" "r1" 1;
             Cmd.Token.mk "default" "cy@example.com" "r3" 2;
             Cmd.Token.mk "work" "bob@example.com" "r2" 3])
    (fun _ => Cmd.Ok "work") (fun _ => "2024-05-01")
    (Cmd.AuthStatusCmd.mk "Work")
  = Cmd.mkOutcome None
      (lit "Authenticated: 2 account(s)\n  - ann@example.com (since 2024-05-01)\n  - bob@example.com (since 2024-05-01)\n")
      "".
Proof.
  apply (proj2 (AuthStatusCmd_Run_report (fun _ => Cmd.Ok true) None
           (Cmd.Ok [Cmd.Token.mk "work" "ann@example.com" "r1" 1;
                    Cmd.Token.mk "default" "cy@example.com" "r3" 2;
                    Cmd.Token.mk "work" "bob@example.com" "r2" 3])
           (fun _ => Cmd.Ok "work") (fun _ => "2024-05-01")
           (Cmd.AuthStatusCmd.mk "Work"))
           [Cmd.Token.mk "work" "ann@example.com" "r1" 1;
            Cmd.Token.mk "default" "cy@example.com" "r3" 2;
            Cmd.Token.mk "work" "bob@example.com" "r2" 3] "work");
    reflexivity.
Defined.

(** ** [whoami] *)

Lemma findTeammate_find (storedEmail : string) (teammates : list Cmd.Teammate.t) :
  Cmd.WhoamiCmd.findTeammate storedEmail teammates
  = find (fun t => String.eqb (Cmd.Teammate.Email t) storedEmail) teammates.
Proof.
  induction teammates as [|t rest IH]; simpl.
  - reflexivity.
  - destruct (String.eqb (Cmd.Teammate.Email t) storedEmail); [reflexivity|exact IH].
Qed.

(** When the account cannot be read, [whoami] returns the error of the API
    as it is, writes to the standard error the text that [Format] prints for
    it, which starts with "Error: ", and writes nothing to the standard
    output, in either output mode. *)
Theorem WhoamiCmd_Run_Me_failure :
  forall (G : string -> string) (modeJSON : bool) (err : error)
         (GetAuthenticatedEmail : string -> string)
         (clientListTeammates : Cmd.result (list Cmd.Teammate.t))
         (WriteJSON : option error) (flags : Cmd.RootFlags.t),
    let run :=
      Cmd.WhoamiCmd.Run G None (Cmd.Ok modeJSON) (Cmd.Failed err)
        GetAuthenticatedEmail clientListTeammates WriteJSON flags in
    Cmd.ret (Cmd.WhoamiCmd.result_ run) = Some err
    /\ Cmd.stderr (Cmd.WhoamiCmd.result_ run) = Errfmt.Format G (Some err)
    /\ HasPrefix (Cmd.stderr (Cmd.WhoamiCmd.result_ run)) "Error: " = true
    /\ Cmd.stdout (Cmd.WhoamiCmd.result_ run) = ""
    /\ Cmd.WhoamiCmd.json run = None.
Proof.
  intros G modeJSON err GetAuthenticatedEmail clientListTeammates WriteJSON flags run.
  subst run. cbn.
  split; [reflexivity|]. split; [reflexivity|]. split; [apply Format_prefix|].
  split; reflexivity.
Qed.

(** In text mode [whoami] returns no error once the account is read, even
    when the teammates cannot be listed.  It prints the account, then the
    first teammate whose email is the stored email, if there is one;
    otherwise the stored email, if it is not empty.  A teammate that is
    printed has the stored email. *)
Theorem WhoamiCmd_Run_text :
  forall (G : string -> string) (me : Cmd.Me.t)
         (GetAuthenticatedEmail : string -> string)
         (clientListTeammates : Cmd.result (list Cmd.Teammate.t))
         (WriteJSON : option error) (flags : Cmd.RootFlags.t),
    let storedEmail := GetAuthenticatedEmail (Cmd.RootFlags.Client flags) in
    let teammate :=
      match clientListTeammates with
      | Cmd.Ok teammates =>
          find (fun t => String.eqb (Cmd.Teammate.Email t) storedEmail) teammates
      | Cmd.Failed _ => None
      end in
    Cmd.WhoamiCmd.Run G None (Cmd.Ok false) (Cmd.Ok me)
      GetAuthenticatedEmail clientListTeammates WriteJSON flags
    = Cmd.WhoamiCmd.mkRun
        (Cmd.mkOutcome None
           ("Account:   " ++ Cmd.Me.ID me ++ lit "\n"
            ++ match teammate with
               | Some t =>
                   "Teammate:  " ++ Cmd.Teammate.ID t ++ lit "\n"
                   ++ "Email:     " ++ Cmd.Teammate.Email t ++ lit "\n"
                   ++ "Username:  " ++ Cmd.Teammate.Username t ++ lit "\n"
                   ++ "Name:      " ++ Cmd.Teammate.FirstName t ++ " "
                   ++ Cmd.Teammate.LastName t ++ lit "\n"
                   ++ "Admin:     " ++ (if Cmd.Teammate.IsAdmin t then "true" else "false")
                   ++ lit "\n"
               | None =>
                   if String.eqb storedEmail "" then ""
                   else "Email:     " ++ storedEmail ++ lit " (stored)\n"
               end)
           "")
        None
    /\ (forall t : Cmd.Teammate.t,
           teammate = Some t -> Cmd.Teammate.Email t = storedEmail).
Proof.
  intros G me GetAuthenticatedEmail clientListTeammates WriteJSON flags
    storedEmail teammate.
  split.
  - unfold Cmd.WhoamiCmd.Run. fold storedEmail.
    assert (E : match clientListTeammates with
                | Cmd.Ok teammates => Cmd.WhoamiCmd.findTeammate storedEmail teammates
                | Cmd.Failed _ => None
                end = teammate).
    { subst teammate. destruct clientListTeammates as [ts|err]; [|reflexivity].
      apply findTeammate_find. }
    rewrite E. f_equal. f_equal.
    destruct teammate as [t|].
    + unfold Cmd.FormatBool. destruct (Cmd.Teammate.IsAdmin t); string_norm; reflexivity.
    + destruct (String.eqb storedEmail ""); string_norm; reflexivity.
  - intros t H. subst teammate.
    destruct clientListTeammates as [ts|err]; [|discriminate H].
    apply find_some in H. destruct H as [_ H].
    apply String.eqb_eq. exact H.
Qed.

(** In JSON mode [whoami] prints nothing itself: it hands the account, and
    the first teammate whose email is the stored email when there is one, to
    [output.WriteJSON], and returns what that returns. *)
Theorem WhoamiCmd_Run_json :
  forall (G : string -> string) (me : Cmd.Me.t)
         (GetAuthenticatedEmail : string -> string)
         (clientListTeammates : Cmd.result (list Cmd.Teammate.t))
         (WriteJSON : option error) (flags : Cmd.RootFlags.t),
    Cmd.WhoamiCmd.Run G None (Cmd.Ok true) (Cmd.Ok me)
      GetAuthenticatedEmail clientListTeammates WriteJSON flags
    = Cmd.WhoamiCmd.mkRun (Cmd.mkOutcome WriteJSON "" "")
        (Some (me,
               match clientListTeammates with
               | Cmd.Ok teammates =>
                   find (fun t =>
                           String.eqb (Cmd.Teammate.Email t)
                             (GetAuthenticatedEmail (Cmd.RootFlags.Client flags)))
                     teammates
               | Cmd.Failed _ => None
               end)).
Proof.
  intros G me GetAuthenticatedEmail clientListTeammates WriteJSON flags.
  unfold Cmd.WhoamiCmd.Run.
  destruct clientListTeammates as [ts|err]; [|reflexivity].
  rewrite findTeammate_find. reflexivity.
Qed.

(** ** [auth setup] *)

(** With a client secret given by the flag, [auth setup] does not ask the
    terminal: it writes the client ID, that secret and the redirect URI under
    the client name, and reports the path, or returns the error of the write
    wrapped. *)
Theorem AuthSetupCmd_Run_with_flag :
  forall (Files : Type) (IsTerminal : bool) (ReadPassword : Cmd.result string)
         (WriteClientCredentials :
            string -> Cmd.OAuthCredentials.t -> Files -> Files * option error)
         (ClientCredentialsPath : string -> string)
         (c : Cmd.AuthSetupCmd.t) (fs : Files),
    Cmd.AuthSetupCmd.ClientSecret c <> "" ->
    let written :=
      WriteClientCredentials (Cmd.AuthSetupCmd.ClientName c)
        (Cmd.OAuthCredentials.mk (Cmd.AuthSetupCmd.ClientID c)
           (Cmd.AuthSetupCmd.ClientSecret c) (Cmd.AuthSetupCmd.RedirectURI c)) fs in
    Cmd.AuthSetupCmd.Run Files IsTerminal ReadPassword WriteClientCredentials
      ClientCredentialsPath c fs
    = (fst written,
       match snd written with
       | Some err =>
           Cmd.mkOutcome (Some (EWrap ("save credentials: " ++ Error err) err)) "" ""
       | None =>
           Cmd.mkOutcome None
             ("Credentials saved to "
              ++ ClientCredentialsPath (Cmd.AuthSetupCmd.ClientName c)
              ++ lit "\nRun 'frontcli auth login' to authenticate.\n")
             ""
       end).
Proof.
  intros Files IsTerminal ReadPassword Write Path c fs Hsecret written.
  subst written. unfold Cmd.AuthSetupCmd.Run, Cmd.AuthSetupCmd.save.
  rewrite (string_eqb_false _ _ Hsecret).
  destruct (Write (Cmd.AuthSetupCmd.ClientName c)
              (Cmd.OAuthCredentials.mk (Cmd.AuthSetupCmd.ClientID c)
                 (Cmd.AuthSetupCmd.ClientSecret c) (Cmd.AuthSetupCmd.RedirectURI c)) fs)
    as [fs' [err|]].
  - errorf. reflexivity.
  - unfold Cmd.Println. string_norm. reflexivity.
Qed.

Lemma AuthSetupCmd_Run_with_flag_witness :
  Cmd.AuthSetupCmd.Run (list (string * Cmd.OAuthCredentials.t)) true
    (Cmd.Ok "typed")
    (fun name creds fs => ((name, creds) :: fs, None))
    (fun name => "/home/ann/.config/frontcli/" ++ name ++ ".json")
    (Cmd.AuthSetupCmd.mk "id-1" "s3cret" "default" "https://localhost:8484/callback") []
  = ([("default",
       Cmd.OAuthCredentials.mk "id-1" "s3cret" "https://localhost:8484/callback")],
     Cmd.mkOutcome None
       (lit "Credentials saved to /home/ann/.config/frontcli/default.json\nRun 'frontcli auth login' to authenticate.\n")
       "").
Proof.
  apply (AuthSetupCmd_Run_with_flag (list (string * Cmd.OAuthCredentials.t)) true
           (Cmd.Ok "typed")
           (fun name creds fs => ((name, creds) :: fs, None))
           (fun name => "/home/ann/.config/frontcli/" ++ name ++ ".json")
           (Cmd.AuthSetupCmd.mk "id-1" "s3cret" "default"
              "https://localhost:8484/callback") []).
  simpl. discriminate.
Defined.

(** Without a client secret on the command line, [auth setup] fails and
    writes nothing when the standard input is not a terminal, and when the
    secret cannot be read after the prompt; a secret that is read is written
    as it is, an empty one included. *)
Theorem AuthSetupCmd_Run_without_flag :
  forall (Files : Type) (IsTerminal : bool) (ReadPassword : Cmd.result string)
         (WriteClientCredentials :
            string -> Cmd.OAuthCredentials.t -> Files -> Files * option error)
         (ClientCredentialsPath : string -> string)
         (c : Cmd.AuthSetupCmd.t) (fs : Files),
    Cmd.AuthSetupCmd.ClientSecret c = "" ->
    let run :=
      Cmd.AuthSetupCmd.Run Files IsTerminal ReadPassword WriteClientCredentials
        ClientCredentialsPath c fs in
    (IsTerminal = false ->
     run = (fs, Cmd.mkOutcome
                  (Some (Cmd.Errorf0
                           "client secret required: use --client-secret flag or run interactively"))
                  "" ""))
    /\ (forall err : error,
           IsTerminal = true -> ReadPassword = Cmd.Failed err ->
           run = (fs, Cmd.mkOutcome
                        (Some (EWrap ("failed to read secret: " ++ Error err) err))
                        (lit "Client Secret: \n") ""))
    /\ (forall secret : string,
           IsTerminal = true -> ReadPassword = Cmd.Ok secret ->
           let written :=
             WriteClientCredentials (Cmd.AuthSetupCmd.ClientName c)
               (Cmd.OAuthCredentials.mk (Cmd.AuthSetupCmd.ClientID c) secret
                  (Cmd.AuthSetupCmd.RedirectURI c)) fs in
           run = (fst written,
                  match snd written with
                  | Some err =>
                      Cmd.mkOutcome
                        (Some (EWrap ("save credentials: " ++ Error err) err))
                        (lit "Client Secret: \n") ""
                  | None =>
                      Cmd.mkOutcome None
                        (lit "Client Secret: \n" ++ "Credentials saved to "
                         ++ ClientCredentialsPath (Cmd.AuthSetupCmd.ClientName c)
                         ++ lit "\nRun 'frontcli auth login' to authenticate.\n")
                        ""
                  end)).
Proof.
  intros Files IsTerminal ReadPassword Write Path c fs Hsecret run.
  subst run. unfold Cmd.AuthSetupCmd.Run. rewrite Hsecret. cbn [String.eqb].
  split; [|split].
  - intros ->. reflexivity.
  - intros err -> ->. errorf. reflexivity.
  - intros secret -> ->. unfold Cmd.AuthSetupCmd.save.
    destruct (Write (Cmd.AuthSetupCmd.ClientName c)
                (Cmd.OAuthCredentials.mk (Cmd.AuthSetupCmd.ClientID c) secret
                   (Cmd.AuthSetupCmd.RedirectURI c)) fs)
      as [fs' [err|]].
    + errorf. reflexivity.
    + unfold Cmd.Println. string_norm. reflexivity.
Qed.

Lemma AuthSetupCmd_Run_without_flag_witness :
  Cmd.AuthSetupCmd.Run (list (string * Cmd.OAuthCredentials.t)) true
    (Cmd.Ok "")
    (fun name creds fs => ((name, creds) :: fs, None))
    (fun name => name ++ ".json")
    (Cmd.AuthSetupCmd.mk "id-1" "" "default" "https://localhost:8484/callback") []
  = ([("default", Cmd.OAuthCredentials.mk "id-1" "" "https://localhost:8484/callback")],
     Cmd.mkOutcome None
       (lit "Client Secret: \nCredentials saved to default.json\nRun 'frontcli auth login' to authenticate.\n")
       "").
Proof.
  apply (proj2 (proj2 (AuthSetupCmd_Run_without_flag
           (list (string * Cmd.OAuthCredentials.t)) true (Cmd.Ok "")
           (fun name creds fs => ((name, creds) :: fs, None))
           (fun name => name ++ ".json")
           (Cmd.AuthSetupCmd.mk "id-1" "" "default" "https://localhost:8484/callback") []
           eq_refl)) "");
    reflexivity.
Defined.

Lemma WhoamiCmd_Run_text_witness :
  let teammates :=
    [Cmd.Teammate.mk "tea_1" "ann@example.com" "ann" "Ann" "Lee" true;
     Cmd.Teammate.mk "tea_2" "bob@example.com" "bob" "Bob" "Ray" false;
     Cmd.Teammate.mk "tea_3" "bob@example.com" "rob" "Rob" "Ray" true] in
  Cmd.stdout
    (Cmd.WhoamiCmd.result_
       (Cmd.WhoamiCmd.Run (fun _ => "") None (Cmd.Ok false)
          (Cmd.Ok (Cmd.Me.mk "acc_1" "")) (fun _ => "bob@example.com")
          (Cmd.Ok teammates) None (Cmd.RootFlags.mk "default" "")))
  = lit "Account:   acc_1\nTeammate:  tea_2\nEmail:     bob@example.com\nUsername:  bob\nName:      Bob Ray\nAdmin:     false\n"
  /\ Cmd.stdout
       (Cmd.WhoamiCmd.result_
          (Cmd.WhoamiCmd.Run (fun _ => "") None (Cmd.Ok false)
             (Cmd.Ok (Cmd.Me.mk "acc_1" "")) (fun _ => "bob@example.com")
             (Cmd.Failed ErrNotFound) None (Cmd.RootFlags.mk "default" "")))
     = lit "Account:   acc_1\nEmail:     bob@example.com (stored)\n".
Proof.
  intros teammates. split.
  - rewrite (proj1 (WhoamiCmd_Run_text (fun _ => "") (Cmd.Me.mk "acc_1" "")
                      (fun _ => "bob@example.com") (Cmd.Ok teammates) None
                      (Cmd.RootFlags.mk "default" ""))).
    reflexivity.
  - rewrite (proj1 (WhoamiCmd_Run_text (fun _ => "") (Cmd.Me.mk "acc_1" "")
                      (fun _ => "bob@example.com") (Cmd.Failed ErrNotFound) None
                      (Cmd.RootFlags.mk "default" ""))).
    reflexivity.
Defined.
